(** * compas_view2, [scripts/minimal.py]: transform math, orbit camera,
      renderable objects and the viewer registry.

    Conventions of the embedding.
    - Python numbers are embedded as real numbers [R], every function in the
      operation order of the source.  Rounding, overflow and NaN of binary64
      are outside this model, so the theorems about the code state what each
      operation computes, in that order, and do not rewrite the arithmetic
      with the laws of a field.  [math.sin] and [math.cos] are the functions
      of the same name of the real library, [math.radians x] is
      [x * PI / 180], and [math.tan] is the real tangent: the tangent of the
      real library is 0 where the cosine vanishes, which [math.tan] is not,
      so nothing is stated at those angles.
    - Module [Binary64] repeats [zoom] and [pan] over IEEE binary64 numbers
      (primitive floats), operation for operation, to evaluate them on
      concrete inputs as CPython does.
    - A Python exception is a value of [exn]; code that can raise returns a
      [result].  Code that talks to OpenGL runs in a state-and-exception
      monad over [GLState]; a raised exception keeps the state reached so
      far, as in Python.
    - Dictionaries are [gmap]s; lists that are iterated keep their order. *)

From Stdlib Require Import PrimFloat.
From Stdlib Require Import Reals Lra.
From stdpp Require Import gmap strings list.

Set Warnings "-inexact-float".

Open Scope R_scope.

(** ** Exceptions and results *)

Inductive exn : Type :=
  | ZeroDivisionError
  | KeyError
  | TypeError
  | AttributeError
  | NotImplementedError.

Inductive result (A : Type) : Type :=
  | Ok (a : A)
  | Raise (e : exn).
Arguments Ok {A} a.
Arguments Raise {A} e.

#[global] Instance result_ret : MRet result := fun _ a => Ok a.
#[global] Instance result_bind : MBind result := fun _ _ k r =>
  match r with
  | Ok a => k a
  | Raise e => Raise e
  end.

(** ** Numbers *)

(** [x / y] of Python on floats: division by zero raises. *)
Definition truediv (x y : R) : result R :=
  if Req_dec_T y 0 then Raise ZeroDivisionError else Ok (x / y).

(** [math.radians]. *)
Definition radians (deg : R) : R := deg * PI / 180.

(** ** Vectors and matrices *)

(** A Python list of three numbers, indexed [0], [1], [2]. *)
Record vec : Type := Vec { vx : R; vy : R; vz : R }.

Definition vec_to_list (v : vec) : list R := [vx v; vy v; vz v].

(** Modelled from the spec: [compas.utilities.flatten], which is not under
    src/: one level of nesting is removed. *)
Definition flatten (l : list vec) : list R := concat (map vec_to_list l).

(** Modelled from the spec: [compas.geometry.Transformation.from_matrix],
    which is not under src/: it wraps the nested list. *)
Record Transformation : Type := from_matrix { matrix : list (list R) }.

(** The functions of [compas.geometry] that [lookat] imports.  They belong
    to the geometry kernel; their source is not part of the repository. *)
Module compas_geometry.

(** Modelled from the spec: [subtract_vectors] of the geometry kernel, which
    is not under src/: the component-wise difference of two vectors. *)
Definition subtract_vectors (u v : vec) : vec :=
  Vec (vx u - vx v) (vy u - vy v) (vz u - vz v).

(** Modelled from the spec: [dot_vectors] of the geometry kernel, which is
    not under src/: the sum of the products of the components. *)
Definition dot_vectors (u v : vec) : R :=
  vx u * vx v + vy u * vy v + vz u * vz v.

(** Modelled from the spec: [length_vector] of the geometry kernel, which is
    not under src/: the square root of the dot product of a vector with
    itself. *)
Definition length_vector (v : vec) : R := sqrt (dot_vectors v v).

(** Modelled from the spec: [scale_vector] of the geometry kernel, which is
    not under src/. *)
Definition scale_vector (v : vec) (k : R) : vec :=
  Vec (vx v * k) (vy v * k) (vz v * k).

(** Modelled from the spec: [cross_vectors] of the geometry kernel, which is
    not under src/: the cross product. *)
Definition cross_vectors (u v : vec) : vec :=
  Vec (vy u * vz v - vz u * vy v)
      (vz u * vx v - vx u * vz v)
      (vx u * vy v - vy u * vx v).

(** Modelled from the spec: [normalize_vector] of the geometry kernel, which
    is not under src/.  The spec says of [lookat] that the original does not
    guard the degenerate case: a vector of length zero is returned as it is
    ([if not length: return vector]), any other vector has its components
    divided by its length. *)
Definition normalize_vector (v : vec) : result vec :=
  let length := length_vector v in
  if Req_dec_T length 0 then Ok v
  else
    (a ← truediv (vx v) length ;
     b ← truediv (vy v) length ;
     c ← truediv (vz v) length ;
     Ok (Vec a b c)).

End compas_geometry.
Import compas_geometry.

(** ** Transform math *)

Definition ortho (left right bottom top near far : R) : result Transformation :=
  (let dx := right - left in
   let dy := top - bottom in
   let dz := far - near in
   rx ← truediv (- (right + left)) dx ;
   ry ← truediv (- (top + bottom)) dy ;
   rz ← truediv (- (far + near)) dz ;
   m00 ← truediv 2 dx ;
   m11 ← truediv 2 dy ;
   m22 ← truediv (- 2) dz ;
   Ok (from_matrix
         [ [m00; 0; 0; rx];
           [0; m11; 0; ry];
           [0; 0; m22; rz];
           [0; 0; 0; 1] ])).

(** [math.tan] is the real tangent here; see the conventions for the angles
    at which the two differ. *)
Definition perspective (fov aspect near far : R) : result Transformation :=
  (sy ← truediv 1 (tan (radians fov / 2)) ;
   sx ← truediv sy aspect ;
   zz ← truediv (far + near) (near - far) ;
   zw ← truediv (2 * far * near) (near - far) ;
   Ok (from_matrix
         [ [sx; 0; 0; 0];
           [0; sy; 0; 0];
           [0; 0; zz; zw];
           [0; 0; -1; 0] ])).

Definition lookat (eye target up : vec) : result Transformation :=
  (d ← normalize_vector (subtract_vectors target eye) ;
   nup ← normalize_vector up ;
   let r := cross_vectors d nup in
   let u := cross_vectors r d in
   Ok (from_matrix
         [ [vx r; vy r; vz r; - vx eye];
           [vx u; vy u; vz u; - vy eye];
           [- vx d; - vy d; - vz d; - vz eye];
           [0; 0; 0; 1] ])).

(** The symmetric perspective matrix of OpenGL ([gluPerspective]), written
    from its textbook formula with [f = cot (fovy / 2)]. *)
Definition standard_perspective (fov aspect near far : R) : Transformation :=
  let f := / tan (radians fov / 2) in
  from_matrix
    [ [f / aspect; 0; 0; 0];
      [0; f; 0; 0];
      [0; 0; (far + near) / (near - far); 2 * far * near / (near - far)];
      [0; 0; -1; 0] ].

(** The argument domain the specification gives for [perspective]. *)
Definition perspective_domain (fov aspect near far : R) : Prop :=
  0 < fov < 180 /\ 0 < aspect /\ 0 < near /\ near < far.

(** Two vectors are parallel when their cross product vanishes; the zero
    vector is parallel to every vector. *)
Definition parallel (u v : vec) : Prop := cross_vectors u v = Vec 0 0 0.

(** ** Pointer tracker and camera *)

Module Mouse.

(** [pos] and [last_pos] are [QPoint]s: integer pixel coordinates. *)
Record t : Type := Build {
  pos : Z * Z;
  last_pos : Z * Z;
  buttons : gmap string bool }.

Definition __init__ : t :=
  Build (0%Z, 0%Z) (0%Z, 0%Z)
        (<["right" := false]> (<["left" := false]> ∅)).

Definition dx (self : t) : R := IZR (fst (pos self) - fst (last_pos self)).
Definition dy (self : t) : R := IZR (snd (pos self) - snd (last_pos self)).

End Mouse.

Module PerspectiveCamera.

Record t : Type := Build {
  fov : R;
  near : R;
  far : R;
  distance : R;
  target : vec;
  rx : R;
  rz : R;
  tx : R;
  ty : R;
  tz : R;
  zoom_delta : R;
  rotation_delta : R;
  pan_delta : R }.

(** [__init__(view, fov=45, near=0.1, far=100, target=None, distance=10)];
    [target or [0, 0, 0]] takes the default when no target is passed. *)
Definition __init__ (fov near far : R) (target : option vec) (distance : R) : t :=
  {| fov := fov; near := near; far := far; distance := distance;
     target := default (Vec 0 0 0) target;
     rx := -60; rz := -30; tx := 0; ty := 0; tz := 0;
     zoom_delta := 5 / 100; rotation_delta := 1; pan_delta := 1 / 10 |}.

Definition create : t := __init__ 45 (1 / 10) 100 None 10.

(** Attribute and item assignments. *)
Definition set_rx (v : R) (c : t) : t :=
  Build (fov c) (near c) (far c) (distance c) (target c) v (rz c)
        (tx c) (ty c) (tz c) (zoom_delta c) (rotation_delta c) (pan_delta c).
Definition set_rz (v : R) (c : t) : t :=
  Build (fov c) (near c) (far c) (distance c) (target c) (rx c) v
        (tx c) (ty c) (tz c) (zoom_delta c) (rotation_delta c) (pan_delta c).
Definition set_tx (v : R) (c : t) : t :=
  Build (fov c) (near c) (far c) (distance c) (target c) (rx c) (rz c)
        v (ty c) (tz c) (zoom_delta c) (rotation_delta c) (pan_delta c).
Definition set_ty (v : R) (c : t) : t :=
  Build (fov c) (near c) (far c) (distance c) (target c) (rx c) (rz c)
        (tx c) v (tz c) (zoom_delta c) (rotation_delta c) (pan_delta c).
Definition set_distance (v : R) (c : t) : t :=
  Build (fov c) (near c) (far c) v (target c) (rx c) (rz c)
        (tx c) (ty c) (tz c) (zoom_delta c) (rotation_delta c) (pan_delta c).
Definition set_target (v : vec) (c : t) : t :=
  Build (fov c) (near c) (far c) (distance c) v (rx c) (rz c)
        (tx c) (ty c) (tz c) (zoom_delta c) (rotation_delta c) (pan_delta c).
Definition set_target_0 (v : R) (c : t) : t :=
  set_target (Vec v (vy (target c)) (vz (target c))) c.
Definition set_target_1 (v : R) (c : t) : t :=
  set_target (Vec (vx (target c)) v (vz (target c))) c.
Definition set_target_2 (v : R) (c : t) : t :=
  set_target (Vec (vx (target c)) (vy (target c)) v) c.

Definition rotate (mouse : Mouse.t) (self : t) : t :=
  let dx := Mouse.dx mouse in
  let dy := Mouse.dy mouse in
  let self := set_rx (rx self + rotation_delta self * dy) self in
  let self := set_rz (rz self + rotation_delta self * dx) self in
  self.

Definition pan (mouse : Mouse.t) (self : t) : t :=
  let sinrz := sin (radians (rz self)) in
  let cosrz := cos (radians (rz self)) in
  let sinrx := sin (radians (rx self)) in
  let cosrx := cos (radians (rx self)) in
  let dx := Mouse.dx mouse * cosrz - Mouse.dy mouse * sinrz * cosrx in
  let dy := Mouse.dy mouse * cosrz * cosrx + Mouse.dx mouse * sinrz in
  let dz := Mouse.dy mouse * sinrx * pan_delta self in
  let dx := dx * (distance self / 10) in
  let dy := dy * (distance self / 10) in
  let dz := dz * (distance self / 10) in
  let self := set_tx (tx self + pan_delta self * dx) self in
  let self := set_ty (ty self - pan_delta self * dy) self in
  let self := set_target_0 (- tx self) self in
  let self := set_target_1 (- ty self) self in
  let self := set_target_2 (vz (target self) - dz) self in
  let self := set_distance (distance self - dz) self in
  self.

Definition zoom (steps : R) (self : t) : t :=
  set_distance (distance self - steps * zoom_delta self * distance self) self.

(** [P] asks the view for its aspect ratio, [width / height]. *)
Definition P (width height : Z) (self : t) : result Transformation :=
  aspect ← truediv (IZR width) (IZR height) ;
  perspective (fov self) aspect (near self) (far self).

(** [V] is the identity transformation. *)
Definition V (self : t) : Transformation :=
  from_matrix [ [1; 0; 0; 0]; [0; 1; 0; 0]; [0; 0; 1; 0]; [0; 0; 0; 1] ].

(** The operations the view applies to its camera: a left drag rotates, a
    right drag pans, the wheel zooms. *)
Inductive op : Type :=
  | Rotate (mouse : Mouse.t)
  | Pan (mouse : Mouse.t)
  | Zoom (steps : R).

Definition apply (o : op) (self : t) : t :=
  match o with
  | Rotate mouse => rotate mouse self
  | Pan mouse => pan mouse self
  | Zoom steps => zoom steps self
  end.

(** The camera after a sequence of operations, first operation first. *)
Definition run (ops : list op) (self : t) : t :=
  foldl (fun c o => apply o c) self ops.

(** States reachable from a camera created without a target. *)
Inductive reachable : t -> Prop :=
  | reach_init fov near far distance :
      reachable (__init__ fov near far None distance)
  | reach_step o c : reachable c -> reachable (apply o c).

(** The displacement [pan] derives from the pointer delta, after scaling. *)
Definition pan_dx (mouse : Mouse.t) (c : t) : R :=
  (Mouse.dx mouse * cos (radians (rz c))
   - Mouse.dy mouse * sin (radians (rz c)) * cos (radians (rx c)))
  * (distance c / 10).
Definition pan_dy (mouse : Mouse.t) (c : t) : R :=
  (Mouse.dy mouse * cos (radians (rz c)) * cos (radians (rx c))
   + Mouse.dx mouse * sin (radians (rz c)))
  * (distance c / 10).
Definition pan_dz (mouse : Mouse.t) (c : t) : R :=
  (Mouse.dy mouse * sin (radians (rx c)) * pan_delta c) * (distance c / 10).

(** The invariant linking the pan offsets and the target. *)
Definition target_follows_offsets (c : t) : Prop :=
  vx (target c) = - tx c /\ vy (target c) = - ty c.

End PerspectiveCamera.

(** [View.wheelEvent]: the wheel delta in eighths of a degree becomes zoom
    steps of fifteen degrees. *)
Definition wheel_steps (delta : Z) : R := IZR delta / 8 / 15.

Close Scope R_scope.

(** ** The OpenGL objects the viewer allocates *)

(** A vertex array object: the attribute locations it enables and the
    buffer each location reads from. *)
Record VAO : Type := MkVAO {
  enabled : gset nat;
  pointers : gmap nat nat }.

(** Names are unsigned integers; [0] is the name of no object. *)
Record GLState : Type := MkGL {
  vertex_arrays : gmap nat VAO;
  buffers : gmap nat (list R);
  vertex_array_binding : nat;
  array_buffer_binding : nat;
  point_size : R }.

Definition gl_empty : GLState := MkGL ∅ ∅ 0 0 1%R.

(** State and exceptions: a raised exception keeps the state. *)
Definition st (S A : Type) : Type := S -> result A * S.

#[global] Instance st_ret {S} : MRet (st S) := fun _ a s => (Ok a, s).
#[global] Instance st_bind {S} : MBind (st S) := fun _ _ k m s =>
  match m s with
  | (Ok a, s') => k a s'
  | (Raise e, s') => (Raise e, s')
  end.

Definition lift {S A} (r : result A) : st S A := fun s => (r, s).
Definition get {S} : st S S := fun s => (Ok s, s).
Definition modify {S} (f : S -> S) : st S unit := fun s => (Ok tt, f s).

(** An action on the second component of a pair of states. *)
Definition on_snd {S1 S2 A} (m : st S2 A) : st (S1 * S2) A := fun s =>
  match m (snd s) with
  | (r, s2) => (r, (fst s, s2))
  end.
Definition on_fst {S1 S2 A} (m : st S1 A) : st (S1 * S2) A := fun s =>
  match m (fst s) with
  | (r, s1) => (r, (s1, snd s))
  end.

(** A name that is neither [0] nor in use. *)
Definition fresh_name {A} (m : gmap nat A) : nat := fresh ({[0]} ∪ dom m).

Module GL.

Definition glGenVertexArrays : st GLState nat := fun s =>
  let n := fresh_name (vertex_arrays s) in
  (Ok n,
   MkGL (<[n := MkVAO ∅ ∅]> (vertex_arrays s)) (buffers s)
        (vertex_array_binding s) (array_buffer_binding s) (point_size s)).

Definition glGenBuffers : st GLState nat := fun s =>
  let n := fresh_name (buffers s) in
  (Ok n,
   MkGL (vertex_arrays s) (<[n := []]> (buffers s))
        (vertex_array_binding s) (array_buffer_binding s) (point_size s)).

Definition glBindVertexArray (n : nat) : st GLState unit :=
  modify (fun s =>
    MkGL (vertex_arrays s) (buffers s) n (array_buffer_binding s)
         (point_size s)).

(** [glBindBuffer(GL_ARRAY_BUFFER, n)]. *)
Definition glBindBuffer (n : nat) : st GLState unit :=
  modify (fun s =>
    MkGL (vertex_arrays s) (buffers s) (vertex_array_binding s) n
         (point_size s)).

(** [glBufferData(GL_ARRAY_BUFFER, size, data, GL_STATIC_DRAW)] fills the
    data store of the bound buffer. *)
Definition glBufferData (data : list R) : st GLState unit :=
  modify (fun s =>
    MkGL (vertex_arrays s)
         (<[array_buffer_binding s := data]> (buffers s))
         (vertex_array_binding s) (array_buffer_binding s) (point_size s)).

Definition glEnableVertexAttribArray (i : nat) : st GLState unit :=
  modify (fun s =>
    MkGL (alter (fun v => MkVAO ({[i]} ∪ enabled v) (pointers v))
                (vertex_array_binding s) (vertex_arrays s))
         (buffers s) (vertex_array_binding s) (array_buffer_binding s)
         (point_size s)).

(** [glVertexAttribPointer(i, 3, GL_FLOAT, False, 0, None)]: location
    [i] of the bound vertex array reads from the bound buffer. *)
Definition glVertexAttribPointer (i : nat) : st GLState unit :=
  modify (fun s =>
    MkGL (alter (fun v => MkVAO (enabled v)
                                (<[i := array_buffer_binding s]> (pointers v)))
                (vertex_array_binding s) (vertex_arrays s))
         (buffers s) (vertex_array_binding s) (array_buffer_binding s)
         (point_size s)).

Definition glPointSize (size : R) : st GLState unit :=
  modify (fun s =>
    MkGL (vertex_arrays s) (buffers s) (vertex_array_binding s)
         (array_buffer_binding s) size).

End GL.

Definition make_vertex_buffer (data : list R) : st GLState nat :=
  vbo ← GL.glGenBuffers ;
  _ ← GL.glBindBuffer vbo ;
  _ ← GL.glBufferData data ;
  mret vbo.

(** [d[k]] on a dictionary. *)
Definition getitem {A} (d : gmap nat A) (k : nat) : result A :=
  match d !! k with
  | Some a => Ok a
  | None => Raise KeyError
  end.

(** A [for] loop over a list that updates its local variables [acc] and
    stops at the first exception. *)
Fixpoint for_each {A B} (body : A -> B -> result B) (xs : list A) (acc : B)
  : result B :=
  match xs with
  | [] => Ok acc
  | x :: xs' =>
      match body x acc with
      | Ok acc' => for_each body xs' acc'
      | Raise e => Raise e
      end
  end.

(** The dictionary a pass returns: [{'vertices': ..., 'colors': ...}]. *)
Record pass_buffers : Type := MkPass {
  pass_vertices : nat;
  pass_colors : nat }.

(** ** Geometry supplied by the kernel *)

Module Network.
(** What the viewer queries of a network: [nodes()], [edges()] and
    [node_attributes(node, 'xyz')]. *)
Record t : Type := Build {
  nodes : list nat;
  edges : list (nat * nat);
  node_attributes : nat -> vec }.

(** Edges of a network connect nodes of the network. *)
Definition wf (n : t) : Prop :=
  ∀ u v, (u, v) ∈ edges n -> u ∈ nodes n /\ v ∈ nodes n.
End Network.

Module Mesh.
(** What the viewer queries of a mesh: [vertices()], [edges()],
    [faces()], [face_vertices(face)], [vertex_attributes(vertex, 'xyz')]. *)
Record t : Type := Build {
  vertices : list nat;
  edges : list (nat * nat);
  faces : list nat;
  face_vertices : nat -> list nat;
  vertex_attributes : nat -> vec }.

(** The vertices of every face are vertices of the mesh. *)
Definition wf (m : t) : Prop :=
  ∀ f v, f ∈ faces m -> v ∈ face_vertices m f -> v ∈ vertices m.

(** The same mesh with the vertex cycle of every face reversed. *)
Definition flip_cycles (m : t) : t :=
  Build (vertices m) (edges m) (faces m)
        (fun f => reverse (face_vertices m f)) (vertex_attributes m).
End Mesh.

(** A value handed to the viewer.  Python does not type it: an object that
    lacks the queried method raises [AttributeError] at the first query.
    A parametric shape is represented by the mesh [Mesh.from_shape] builds
    from it. *)
Inductive geometry : Type :=
  | Geo_Mesh (m : Mesh.t)
  | Geo_Network (n : Network.t)
  | Geo_Shape (tessellation : Mesh.t)
  | Geo_Other.

Definition as_mesh (g : geometry) : result Mesh.t :=
  match g with
  | Geo_Mesh m => Ok m
  | _ => Raise AttributeError
  end.

Definition as_network (g : geometry) : result Network.t :=
  match g with
  | Geo_Network n => Ok n
  | _ => Raise AttributeError
  end.

Definition from_shape (g : geometry) : result geometry :=
  match g with
  | Geo_Shape tessellation => Ok (Geo_Mesh tessellation)
  | _ => Raise AttributeError
  end.

(** Values of keyword arguments. *)
Inductive pyval : Type :=
  | PyNone
  | PyBool (b : bool)
  | PyStr (s : string).

(** ** Renderable objects *)

(** The eight calls [init] repeats for each pass: bind the vertex array,
    point location 0 at the pass's vertex buffer and location 1 at its
    color buffer.  The pass is a property: every access runs it again. *)
Definition attach (vao : nat) (pass : st GLState pass_buffers) : st GLState unit :=
  _ ← GL.glBindVertexArray vao ;
  _ ← GL.glEnableVertexAttribArray 0 ;
  b ← pass ;
  _ ← GL.glBindBuffer (pass_vertices b) ;
  _ ← GL.glVertexAttribPointer 0 ;
  _ ← GL.glEnableVertexAttribArray 1 ;
  b ← pass ;
  _ ← GL.glBindBuffer (pass_colors b) ;
  GL.glVertexAttribPointer 1.

Module NetworkObject.

Record vaos : Type := MkVaos { vao_edges : nat; vao_nodes : nat }.

Record t : Type := Build {
  _vao : option vaos;
  _data : geometry;
  name : pyval;
  is_selected : pyval;
  show_nodes : pyval;
  show_edges : pyval }.

Definition default_color_nodes : vec := Vec (1 / 10) (1 / 10) (1 / 10)%R.
Definition default_color_edges : vec := Vec (4 / 10) (4 / 10) (4 / 10)%R.

Definition __init__ (data : geometry) (name is_selected show_nodes show_edges : pyval) : t :=
  Build None data name is_selected show_nodes show_edges.

Definition set_vao (v : vaos) (self : t) : t :=
  Build (Some v) (_data self) (name self) (is_selected self)
        (show_nodes self) (show_edges self).

Definition node_xyz (self : t) : result (gmap nat vec) :=
  data ← as_network (_data self) ;
  Ok (foldl (fun d node => <[node := Network.node_attributes data node]> d)
            ∅ (Network.nodes data)).

Definition nodes (self : t) : st GLState pass_buffers :=
  node_xyz ← lift (node_xyz self) ;
  data ← lift (as_network (_data self)) ;
  let color := default_color_nodes in
  '(vertices, colors) ← lift (for_each
      (fun node '(vertices, colors) =>
         xyz ← getitem node_xyz node ;
         Ok (vertices ++ [xyz], colors ++ [color]))
      (Network.nodes data) ([], [])) ;
  v ← make_vertex_buffer (flatten vertices) ;
  c ← make_vertex_buffer (flatten colors) ;
  mret (MkPass v c).

Definition edges (self : t) : st GLState pass_buffers :=
  node_xyz ← lift (node_xyz self) ;
  data ← lift (as_network (_data self)) ;
  let color := default_color_edges in
  '(edges, colors) ← lift (for_each
      (fun '(u, v) '(edges, colors) =>
         pu ← getitem node_xyz u ;
         pv ← getitem node_xyz v ;
         Ok (edges ++ [pu] ++ [pv], colors ++ [color] ++ [color]))
      (Network.edges data) ([], [])) ;
  v ← make_vertex_buffer (flatten edges) ;
  c ← make_vertex_buffer (flatten colors) ;
  mret (MkPass v c).

Definition init : st (t * GLState) unit :=
  e ← on_snd GL.glGenVertexArrays ;
  n ← on_snd GL.glGenVertexArrays ;
  _ ← on_fst (modify (set_vao (MkVaos e n))) ;
  self ← on_fst get ;
  _ ← on_snd (attach e (edges self)) ;
  _ ← on_snd (GL.glPointSize 10) ;
  _ ← on_snd (attach n (nodes self)) ;
  on_snd (GL.glBindVertexArray 0).

End NetworkObject.

Module MeshObject.

(** [ShapeObject] subclasses [MeshObject]: it overrides the default colors
    and the [data] setter. *)
Inductive class : Type := cls_MeshObject | cls_ShapeObject.

Record vaos : Type := MkVaos {
  vao_front : nat;
  vao_back : nat;
  vao_edges : nat;
  vao_vertices : nat }.

Record t : Type := Build {
  cls : class;
  _vao : option vaos;
  _data : geometry;
  _mesh : geometry;
  name : pyval;
  is_selected : pyval;
  show_vertices : pyval;
  show_edges : pyval;
  show_faces : pyval }.

Definition default_color_vertices (c : class) : vec :=
  Vec (1 / 10) (1 / 10) (1 / 10)%R.
Definition default_color_edges (c : class) : vec :=
  Vec (2 / 10) (2 / 10) (2 / 10)%R.
Definition default_color_front (c : class) : vec :=
  match c with
  | cls_MeshObject => Vec (8 / 10) (8 / 10) (8 / 10)%R
  | cls_ShapeObject => Vec (6 / 10) (6 / 10) (6 / 10)%R
  end.
Definition default_color_back (c : class) : vec :=
  match c with
  | cls_MeshObject => Vec 1 (5 / 10) (7 / 10)%R
  | cls_ShapeObject => Vec (4 / 10) (4 / 10) (4 / 10)%R
  end.

(** The [data] setter runs inside [__init__]: a [MeshObject] renders the
    data itself, a [ShapeObject] the mesh built from the shape. *)
Definition __init__ (c : class) (data : geometry)
    (name is_selected show_vertices show_edges show_faces : pyval) : result t :=
  mesh ← match c with
         | cls_MeshObject => Ok data
         | cls_ShapeObject => from_shape data
         end ;
  Ok (Build c None data mesh name is_selected show_vertices show_edges
            show_faces).

Definition set_vao (v : vaos) (self : t) : t :=
  Build (cls self) (Some v) (_data self) (_mesh self) (name self)
        (is_selected self) (show_vertices self) (show_edges self)
        (show_faces self).

Definition vertex_xyz (self : t) : result (gmap nat vec) :=
  mesh ← as_mesh (_mesh self) ;
  Ok (foldl (fun d vertex => <[vertex := Mesh.vertex_attributes mesh vertex]> d)
            ∅ (Mesh.vertices mesh)).

Definition vertices (self : t) : st GLState pass_buffers :=
  vertex_xyz ← lift (vertex_xyz self) ;
  mesh ← lift (as_mesh (_mesh self)) ;
  let color := default_color_vertices (cls self) in
  '(vertices, colors) ← lift (for_each
      (fun vertex '(vertices, colors) =>
         xyz ← getitem vertex_xyz vertex ;
         Ok (vertices ++ [xyz], colors ++ [color]))
      (Mesh.vertices mesh) ([], [])) ;
  v ← make_vertex_buffer (flatten vertices) ;
  c ← make_vertex_buffer (flatten colors) ;
  mret (MkPass v c).

Definition edges (self : t) : st GLState pass_buffers :=
  vertex_xyz ← lift (vertex_xyz self) ;
  mesh ← lift (as_mesh (_mesh self)) ;
  let color := default_color_edges (cls self) in
  '(edges, colors) ← lift (for_each
      (fun '(u, v) '(edges, colors) =>
         pu ← getitem vertex_xyz u ;
         pv ← getitem vertex_xyz v ;
         Ok (edges ++ [pu] ++ [pv], colors ++ [color] ++ [color]))
      (Mesh.edges mesh) ([], [])) ;
  v ← make_vertex_buffer (flatten edges) ;
  c ← make_vertex_buffer (flatten colors) ;
  mret (MkPass v c).

(** The loop of [front]: the positions and colors appended for the faces,
    three per triangle. *)
Definition front_faces (self : t) : result (list vec * list vec) :=
  vertex_xyz ← vertex_xyz self ;
  mesh ← as_mesh (_mesh self) ;
  let color := default_color_front (cls self) in
  for_each
    (fun face '(faces, colors) =>
       let vertices := Mesh.face_vertices mesh face in
       match vertices with
       | [a; b; c] =>
           pa ← getitem vertex_xyz a ;
           pb ← getitem vertex_xyz b ;
           pc ← getitem vertex_xyz c ;
           Ok (faces ++ [pa] ++ [pb] ++ [pc],
               colors ++ [color] ++ [color] ++ [color])
       | [a; b; c; d] =>
           pa ← getitem vertex_xyz a ;
           pb ← getitem vertex_xyz b ;
           pc ← getitem vertex_xyz c ;
           pa' ← getitem vertex_xyz a ;
           pc' ← getitem vertex_xyz c ;
           pd ← getitem vertex_xyz d ;
           Ok (faces ++ [pa] ++ [pb] ++ [pc] ++ [pa'] ++ [pc'] ++ [pd],
               colors ++ [color] ++ [color] ++ [color]
                      ++ [color] ++ [color] ++ [color])
       | _ => Raise NotImplementedError
       end)
    (Mesh.faces mesh) ([], []).

Definition front (self : t) : st GLState pass_buffers :=
  '(faces, colors) ← lift (front_faces self) ;
  v ← make_vertex_buffer (flatten faces) ;
  c ← make_vertex_buffer (flatten colors) ;
  mret (MkPass v c).

(** The loop of [back]: the same, on [face_vertices(face)[::-1]]. *)
Definition back_faces (self : t) : result (list vec * list vec) :=
  vertex_xyz ← vertex_xyz self ;
  mesh ← as_mesh (_mesh self) ;
  let color := default_color_back (cls self) in
  for_each
    (fun face '(faces, colors) =>
       let vertices := reverse (Mesh.face_vertices mesh face) in
       match vertices with
       | [a; b; c] =>
           pa ← getitem vertex_xyz a ;
           pb ← getitem vertex_xyz b ;
           pc ← getitem vertex_xyz c ;
           Ok (faces ++ [pa] ++ [pb] ++ [pc],
               colors ++ [color] ++ [color] ++ [color])
       | [a; b; c; d] =>
           pa ← getitem vertex_xyz a ;
           pb ← getitem vertex_xyz b ;
           pc ← getitem vertex_xyz c ;
           pa' ← getitem vertex_xyz a ;
           pc' ← getitem vertex_xyz c ;
           pd ← getitem vertex_xyz d ;
           Ok (faces ++ [pa] ++ [pb] ++ [pc] ++ [pa'] ++ [pc'] ++ [pd],
               colors ++ [color] ++ [color] ++ [color]
                      ++ [color] ++ [color] ++ [color])
       | _ => Raise NotImplementedError
       end)
    (Mesh.faces mesh) ([], []).

Definition back (self : t) : st GLState pass_buffers :=
  '(faces, colors) ← lift (back_faces self) ;
  v ← make_vertex_buffer (flatten faces) ;
  c ← make_vertex_buffer (flatten colors) ;
  mret (MkPass v c).

Definition init : st (t * GLState) unit :=
  f ← on_snd GL.glGenVertexArrays ;
  b ← on_snd GL.glGenVertexArrays ;
  e ← on_snd GL.glGenVertexArrays ;
  v ← on_snd GL.glGenVertexArrays ;
  _ ← on_fst (modify (set_vao (MkVaos f b e v))) ;
  self ← on_fst get ;
  _ ← on_snd (attach f (front self)) ;
  _ ← on_snd (attach b (back self)) ;
  _ ← on_snd (attach e (edges self)) ;
  _ ← on_snd (GL.glPointSize 10) ;
  _ ← on_snd (attach v (vertices self)) ;
  on_snd (GL.glBindVertexArray 0).

End MeshObject.

(** ** What the specification says of the face passes *)

(** A triangle, as three vertex keys in winding order. *)
Definition triangle : Type := (nat * nat * nat)%type.

(** A triangle stays, a quadrilateral [(a, b, c, d)] becomes [(a, b, c)] and
    [(a, c, d)]; no other face is supported. *)
Definition triangulate (face : list nat) : option (list triangle) :=
  match face with
  | [a; b; c] => Some [(a, b, c)]
  | [a; b; c; d] => Some [(a, b, c); (a, c, d)]
  | _ => None
  end.

(** The positions a list of triangles contributes to a vertex buffer. *)
Definition triangle_positions (xyz : nat -> vec) (ts : list triangle) : list vec :=
  concat (map (fun '(a, b, c) => [xyz a; xyz b; xyz c]) ts).

(** The triangles of the faces [l], face after face, where [fv] gives the
    vertices of a face; every face is assumed to have three or four
    vertices. *)
Definition face_triangles (fv : nat -> list nat) (l : list nat) : list triangle :=
  concat (map (fun f => default [] (triangulate (fv f))) l).

Definition mesh_triangles (m : Mesh.t) : list triangle :=
  face_triangles (Mesh.face_vertices m) (Mesh.faces m).

(** The positions a list of edges contributes to a vertex buffer: the two
    endpoints of each edge. *)
Definition edge_positions (xyz : nat -> vec) (es : list (nat * nat)) : list vec :=
  concat (map (fun '(u, v) => [xyz u; xyz v]) es).

(** A face the passes accept. *)
Definition supported_face (face : list nat) : Prop :=
  length face = 3 \/ length face = 4.

(** ** The viewer and its registry *)

Module Viewer.

(** A geometry object: its identity (the dictionary key), the name of its
    runtime type and its content. *)
Record Data : Type := MkData {
  guid : nat;
  dtype : string;
  content : geometry }.

(** The classes a type can be registered with. *)
Inductive otype : Type :=
  | ShapeObject_
  | MeshObject_
  | NetworkObject_.

Inductive render_object : Type :=
  | Obj_Mesh (o : MeshObject.t)
  | Obj_Network (o : NetworkObject.t).

(** [DTYPE_OTYPE] as the main block fills it. *)
Definition DTYPE_OTYPE_main : gmap string otype :=
  <["Network" := NetworkObject_]>
    (<["Mesh" := MeshObject_]>
       (<["Torus" := ShapeObject_]>
          (<["Sphere" := ShapeObject_]>
             (<["Box" := ShapeObject_]> ∅)))).

(** The keyword parameters of the two constructors. *)
Definition mesh_keywords : gset string :=
  {["name"; "is_selected"; "show_vertices"; "show_edges"; "show_faces"]}.
Definition network_keywords : gset string :=
  {["name"; "is_selected"; "show_nodes"; "show_edges"]}.

Definition kwarg (kwargs : gmap string pyval) (k : string) (dflt : pyval) : pyval :=
  default dflt (kwargs !! k).

(** [otype(data, **kwargs)]: an unexpected keyword is a [TypeError]. *)
Definition construct (c : otype) (data : geometry) (kwargs : gmap string pyval)
  : result render_object :=
  match c with
  | NetworkObject_ =>
      if decide (dom kwargs ⊆ network_keywords) then
        Ok (Obj_Network (NetworkObject.__init__ data
              (kwarg kwargs "name" PyNone)
              (kwarg kwargs "is_selected" (PyBool false))
              (kwarg kwargs "show_nodes" (PyBool true))
              (kwarg kwargs "show_edges" (PyBool true))))
      else Raise TypeError
  | MeshObject_ | ShapeObject_ =>
      if decide (dom kwargs ⊆ mesh_keywords) then
        o ← MeshObject.__init__
              (match c with
               | ShapeObject_ => MeshObject.cls_ShapeObject
               | _ => MeshObject.cls_MeshObject
               end)
              data
              (kwarg kwargs "name" PyNone)
              (kwarg kwargs "is_selected" (PyBool false))
              (kwarg kwargs "show_vertices" (PyBool true))
              (kwarg kwargs "show_edges" (PyBool true))
              (kwarg kwargs "show_faces" (PyBool true)) ;
        Ok (Obj_Mesh o)
      else Raise TypeError
  end.

(** [d[k] = v] on an insertion-ordered dictionary. *)
Fixpoint setitem {A} (d : list (nat * A)) (k : nat) (v : A) : list (nat * A) :=
  match d with
  | [] => [(k, v)]
  | (k', v') :: d' =>
      if decide (k' = k) then (k, v) :: d' else (k', v') :: setitem d' k v
  end.

(** The render surface's object collection, and a log of the constructor
    calls made so far (the identity of the data each was called on). *)
Record t : Type := Build {
  objects : list (nat * render_object);
  constructed : list nat }.

Definition create : t := Build [] [].

(** [self.view.objects[data] = DTYPE_OTYPE[type(data)](data, **kwargs)]:
    the right-hand side is evaluated first, the registry lookup before
    the call. *)
Definition add (DTYPE_OTYPE : gmap string otype) (data : Data)
    (kwargs : gmap string pyval) : st t unit :=
  c ← lift (match DTYPE_OTYPE !! dtype data with
            | Some c => Ok c
            | None => Raise KeyError
            end) ;
  _ ← modify (fun s => Build (objects s) (constructed s ++ [guid data])) ;
  o ← lift (construct c (content data) kwargs) ;
  modify (fun s => Build (setitem (objects s) (guid data) o) (constructed s)).

End Viewer.

(** ** The state after an upload *)

(** The state [make_vertex_buffer data] leaves: one more buffer, filled
    with [data] and bound. *)
Definition buffer_added (data : list R) (s : GLState) : GLState :=
  MkGL (vertex_arrays s)
       (<[fresh_name (buffers s) := data]> (buffers s))
       (vertex_array_binding s) (fresh_name (buffers s)) (point_size s).

(** The end of every pass: positions and colors go to two new buffers. *)
Definition upload (verts cols : list R) : st GLState pass_buffers :=
  v ← make_vertex_buffer verts ;
  c ← make_vertex_buffer cols ;
  mret (MkPass v c).

(** Edges of a mesh connect vertices of the mesh. *)
Definition mesh_edges_wf (m : Mesh.t) : Prop :=
  ∀ u v, (u, v) ∈ Mesh.edges m -> u ∈ Mesh.vertices m /\ v ∈ Mesh.vertices m.

(** A triangle with its winding reversed. *)
Definition reverse_winding (t : triangle) : triangle :=
  match t with
  | (a, b, c) => (c, b, a)
  end.

(** What a vertex array holds after [attach]: locations 0 and 1 enabled,
    location 0 reading [positions] and location 1 reading [colors]. *)
Definition vao_reads (s : GLState) (vao : nat) (positions colors : list R) : Prop :=
  exists V bp bc,
    vertex_arrays s !! vao = Some V
    /\ 0 ∈ enabled V /\ 1 ∈ enabled V
    /\ pointers V !! 0 = Some bp /\ pointers V !! 1 = Some bc
    /\ buffers s !! bp = Some positions
    /\ buffers s !! bc = Some colors.

(** A pass that succeeds from [s]: it returns two distinct new buffers
    holding [positions] and [colors], keeps every buffer that existed and
    touches no vertex array. *)
Definition pass_uploads (pass : st GLState pass_buffers) (s : GLState)
    (positions colors : list R) : Prop :=
  exists v c s',
    pass s = (Ok (MkPass v c), s')
    /\ buffers s' !! v = Some positions
    /\ buffers s' !! c = Some colors
    /\ v <> c
    /\ size (buffers s') = 2 + size (buffers s)
    /\ buffers s ⊆ buffers s'
    /\ vertex_arrays s' = vertex_arrays s.

(** ** The view: size and event handlers *)

Module View.

(** A mouse event: [event.pos()] and the buttons of [event.buttons()]. *)
Record mouse_event : Type := MkMouseEvent {
  ev_pos : Z * Z;
  ev_left : bool;
  ev_right : bool }.

(** The part of the widget the handlers read and write: its size, its
    camera and its pointer tracker. *)
Record t : Type := Build {
  width : Z;
  height : Z;
  camera : PerspectiveCamera.t;
  mouse : Mouse.t }.

(** [width = 800], [height = 500], a camera and a mouse with defaults. *)
Definition __init__ : t :=
  Build 800 500 PerspectiveCamera.create Mouse.__init__.

Definition set_camera (c : PerspectiveCamera.t) (self : t) : t :=
  Build (width self) (height self) c (mouse self).
Definition set_mouse (m : Mouse.t) (self : t) : t :=
  Build (width self) (height self) (camera self) m.
Definition set_pos (p : Z * Z) (m : Mouse.t) : Mouse.t :=
  Mouse.Build p (Mouse.last_pos m) (Mouse.buttons m).
Definition set_last_pos (p : Z * Z) (m : Mouse.t) : Mouse.t :=
  Mouse.Build (Mouse.pos m) p (Mouse.buttons m).

(** [aspect]: [self.width / self.height]. *)
Definition aspect (self : t) : result R :=
  truediv (IZR (width self)) (IZR (height self)).

(** [mouseMoveEvent]; [focused] is [isActiveWindow() and underMouse()].
    The repaint request does not touch the state modelled here. *)
Definition mouseMoveEvent (focused : bool) (event : mouse_event) (self : t) : t :=
  if focused then
    let self := set_mouse (set_pos (ev_pos event) (mouse self)) self in
    if ev_left event then
      let self := set_camera (PerspectiveCamera.rotate (mouse self) (camera self)) self in
      let self := set_mouse (set_last_pos (ev_pos event) (mouse self)) self in
      self
    else if ev_right event then
      let self := set_camera (PerspectiveCamera.pan (mouse self) (camera self)) self in
      let self := set_mouse (set_last_pos (ev_pos event) (mouse self)) self in
      self
    else self
  else self.

Definition mousePressEvent (focused : bool) (event : mouse_event) (self : t) : t :=
  if focused then set_mouse (set_last_pos (ev_pos event) (mouse self)) self
  else self.

Definition mouseReleaseEvent (focused : bool) (event : mouse_event) (self : t) : t :=
  self.

(** [wheelEvent]: [degrees = delta / 8], [steps = degrees / 15]. *)
Definition wheelEvent (focused : bool) (delta : Z) (self : t) : t :=
  if focused then
    let degrees := (IZR delta / 8)%R in
    let steps := (degrees / 15)%R in
    set_camera (PerspectiveCamera.zoom steps (camera self)) self
  else self.

(** [resizeGL]: the size is stored, then the projection is computed from the
    new size for the uniform [P]; the result is the matrix uploaded. *)
Definition resizeGL (width height : Z) : st t Transformation := fun self =>
  let self := Build width height (camera self) (mouse self) in
  (PerspectiveCamera.P (View.width self) (View.height self) (camera self), self).

(** A left drag: the button goes down at [p0], then the pointer moves
    through [ps] with the button held. *)
Definition left_drag (p0 : Z * Z) (ps : list (Z * Z)) (self : t) : t :=
  foldl (fun v p => mouseMoveEvent true (MkMouseEvent p true false) v)
        (mousePressEvent true (MkMouseEvent p0 true false) self) ps.

End View.

(** ** Drawing a network object *)

Inductive primitive : Type := GL_POINTS | GL_LINES | GL_TRIANGLES.

(** A call of [glDrawArrays(mode, first, count)] and the vertex array bound
    when it was made. *)
Record draw_call : Type := MkDraw {
  dc_vao : nat;
  dc_mode : primitive;
  dc_first : Z;
  dc_count : Z }.

(** The enumerator [GL_BUFFER_SIZE] of OpenGL, [0x8764]. *)
Definition GL_BUFFER_SIZE : Z := 34660.

(** Truth value of a Python value in a condition. *)
Definition truthy (v : pyval) : bool :=
  match v with
  | PyNone => false
  | PyBool b => b
  | PyStr s => negb (String.eqb s "")
  end.

Module Draw.

(** The GL state together with the draw calls issued so far. *)
Definition glDrawArrays (mode : primitive) (first count : Z)
  : st (GLState * list draw_call) unit :=
  modify (fun s =>
    (fst s, snd s ++ [MkDraw (vertex_array_binding (fst s)) mode first count])).

(** [self._vao[...]]: subscripting [None] is a [TypeError]. *)
Definition network_vao (self : NetworkObject.t) (pick : NetworkObject.vaos -> nat)
  : result nat :=
  match NetworkObject._vao self with
  | Some v => Ok (pick v)
  | None => Raise TypeError
  end.

(** [NetworkObject.draw]. *)
Definition network_draw (self : NetworkObject.t) : st (GLState * list draw_call) unit :=
  _ ← (if truthy (NetworkObject.show_edges self) then
         vao ← lift (network_vao self NetworkObject.vao_edges) ;
         _ ← on_fst (GL.glBindVertexArray vao) ;
         glDrawArrays GL_LINES 0 GL_BUFFER_SIZE
       else mret tt) ;
  if truthy (NetworkObject.show_nodes self) then
    vao ← lift (network_vao self NetworkObject.vao_nodes) ;
    _ ← on_fst (GL.glBindVertexArray vao) ;
    glDrawArrays GL_POINTS 0 GL_BUFFER_SIZE
  else mret tt.

End Draw.

(** ** Reading the object collection *)

(** [d[k]] on an insertion-ordered dictionary. *)
Fixpoint dict_getitem {A} (d : list (nat * A)) (k : nat) : result A :=
  match d with
  | [] => Raise KeyError
  | (k', v) :: d' => if decide (k' = k) then Ok v else dict_getitem d' k
  end.

(** ** The camera over binary64 *)

Module Binary64.

(** The fields of [PerspectiveCamera] as binary64 numbers; the integers the
    constructor stores are the floats of the same value. *)
Record camera : Type := Build {
  fov : float;
  near : float;
  far : float;
  distance : float;
  target_x : float;
  target_y : float;
  target_z : float;
  rx : float;
  rz : float;
  tx : float;
  ty : float;
  tz : float;
  zoom_delta : float;
  rotation_delta : float;
  pan_delta : float }.

(** [PerspectiveCamera(view, target=[x, y, z], distance=distance)] with the
    other arguments at their defaults. *)
Definition __init__ (x y z distance : float) : camera :=
  Build 45 0.1 100 distance x y z (-60) (-30) 0 0 0 0.05 1 0.1.

(** [self.distance -= steps * self.zoom_delta * self.distance]. *)
Definition zoom (steps : float) (c : camera) : camera :=
  Build (fov c) (near c) (far c)
        (distance c - steps * zoom_delta c * distance c)%float
        (target_x c) (target_y c) (target_z c) (rx c) (rz c)
        (tx c) (ty c) (tz c) (zoom_delta c) (rotation_delta c) (pan_delta c).

(** The values the four calls of [math.sin] and [math.cos] at the start of
    [pan] return; primitive floats have no trigonometry. *)
Record trig : Type := Trig {
  sinrz : float;
  cosrz : float;
  sinrx : float;
  cosrx : float }.

(** [pan], with the pointer delta [(mdx, mdy)] converted to floats as the
    multiplications of Python do. *)
Definition pan (t : trig) (mdx mdy : float) (c : camera) : camera :=
  let dx := (mdx * cosrz t - mdy * sinrz t * cosrx t)%float in
  let dy := (mdy * cosrz t * cosrx t + mdx * sinrz t)%float in
  let dz := (mdy * sinrx t * pan_delta c)%float in
  let dx := (dx * (distance c / 10))%float in
  let dy := (dy * (distance c / 10))%float in
  let dz := (dz * (distance c / 10))%float in
  let tx' := (tx c + pan_delta c * dx)%float in
  let ty' := (ty c - pan_delta c * dy)%float in
  Build (fov c) (near c) (far c) (distance c - dz)%float
        (- tx')%float (- ty')%float (target_z c - dz)%float (rx c) (rz c)
        tx' ty' (tz c) (zoom_delta c) (rotation_delta c) (pan_delta c).



End Binary64.

(** ** Sample data *)

Module Samples.

Definition coordinate (k : nat) : vec := Vec (INR k) 0 0.

(** A path of four nodes and three edges. *)
Definition path_network : Network.t :=
  Network.Build [0; 1; 2; 3] [(0, 1); (1, 2); (2, 3)] coordinate.

(** A mesh with one quadrilateral face. *)
Definition quad : Mesh.t :=
  Mesh.Build [0; 1; 2; 3] [(0, 1); (1, 2); (2, 3); (3, 0)] [0]
             (fun _ => [0; 1; 2; 3]) coordinate.

(** A mesh with one face of five vertices. *)
Definition pentagon : Mesh.t :=
  Mesh.Build [0; 1; 2; 3; 4] [(0, 1); (1, 2); (2, 3); (3, 4); (4, 0)] [0]
             (fun _ => [0; 1; 2; 3; 4]) coordinate.

(** [MeshObject(mesh)] and [NetworkObject(network)] with default options. *)
Definition mesh_object (m : Mesh.t) : MeshObject.t :=
  MeshObject.Build MeshObject.cls_MeshObject None (Geo_Mesh m) (Geo_Mesh m)
                   PyNone (PyBool false) (PyBool true) (PyBool true)
                   (PyBool true).

Definition network_object (n : Network.t) : NetworkObject.t :=
  NetworkObject.__init__ (Geo_Network n) PyNone (PyBool false) (PyBool true)
                         (PyBool true).

(** A point cloud: a geometry type the main block does not register. *)
Definition pointcloud : Viewer.Data := Viewer.MkData 7 "Pointcloud" Geo_Other.

(** A mesh with one triangular face. *)
Definition triangle_mesh : Mesh.t :=
  Mesh.Build [0; 1; 2] [(0, 1); (1, 2); (2, 0)] [0]
             (fun _ => [0; 1; 2]) coordinate.

(** A network with an edge to a node it does not have. *)
Definition dangling_network : Network.t :=
  Network.Build [0; 1] [(0, 1); (1, 5)] coordinate.

End Samples.

(** ** Proof steps *)

(** A name that differs from every entry of a list is not in the list. *)
Ltac not_among :=
  let H := fresh "H" in
  intros H;
  repeat (apply elem_of_cons in H; destruct H as [H | H]; [congruence | ]);
  inversion H.

(** * Properties *)

(** ** Division and the result monad *)

Section results.
Open Scope R_scope.

Lemma truediv_ok (x y : R) : y <> 0 -> truediv x y = Ok (x / y).
Proof.
  intros Hy. unfold truediv.
  destruct (Req_dec_T y 0) as [E | _]; [contradiction | reflexivity].
Qed.

Lemma truediv_zero (x : R) : truediv x 0 = Raise ZeroDivisionError.
Proof.
  unfold truediv. destruct (Req_dec_T 0 0) as [_ | N]; [reflexivity | ].
  exfalso. apply N. reflexivity.
Qed.

Lemma truediv_cases (x y : R) :
  (y = 0 /\ truediv x y = Raise ZeroDivisionError)
  \/ (y <> 0 /\ truediv x y = Ok (x / y)).
Proof.
  destruct (Req_dec_T y 0) as [E | N].
  - left. subst y. split; [reflexivity | apply truediv_zero].
  - right. split; [assumption | apply truediv_ok; assumption].
Qed.

Lemma result_bind_ok {A B} (a : A) (k : A -> result B) :
  (Ok a ≫= k) = k a.
Proof. reflexivity. Qed.

Lemma result_bind_raise {A B} (e : exn) (k : A -> result B) :
  (Raise e ≫= k) = Raise e.
Proof. reflexivity. Qed.

End results.

(** ** Transform math *)

Section transform_math.
Open Scope R_scope.

Lemma tan_half_fov_pos (fov : R) : 0 < fov < 180 -> 0 < tan (radians fov / 2).
Proof.
  intros [Hlo Hhi]. unfold radians.
  assert (HPI := PI_RGT_0).
  apply tan_gt_0.
  - apply Rmult_lt_0_compat; [ | lra].
    apply Rmult_lt_0_compat; [ | lra].
    apply Rmult_lt_0_compat; assumption.
  - assert (fov * PI < 180 * PI) by (apply Rmult_lt_compat_r; assumption).
    lra.
Qed.

Lemma perspective_ok (fov aspect near far : R) :
  tan (radians fov / 2) <> 0 -> aspect <> 0 -> near <> far ->
  perspective fov aspect near far
  = Ok (standard_perspective fov aspect near far).
Proof.
  intros Ht Ha Hnf.
  assert (Hd : near - far <> 0) by lra.
  unfold perspective, standard_perspective.
  rewrite (truediv_ok 1 _ Ht). cbn.
  rewrite (truediv_ok _ _ Ha). cbn.
  rewrite !(truediv_ok _ _ Hd). cbn.
  replace (1 / tan (radians fov / 2)) with (/ tan (radians fov / 2))
    by (unfold Rdiv; rewrite Rmult_1_l; reflexivity).
  reflexivity.
Qed.

Lemma tan_half_fov_0 : tan (radians 0 / 2) = 0.
Proof.
  replace (radians 0 / 2) with 0 by (unfold radians; field).
  apply tan_0.
Qed.

Lemma perspective_raises (fov aspect near far : R) :
  fov = 0 \/ aspect = 0 \/ near = far ->
  perspective fov aspect near far = Raise ZeroDivisionError.
Proof.
  intros H. unfold perspective.
  destruct (truediv_cases 1 (tan (radians fov / 2))) as [[_ ->] | [Ht ->]];
    [reflexivity | cbn].
  destruct (truediv_cases (1 / tan (radians fov / 2)) aspect)
    as [[_ ->] | [Ha ->]]; [reflexivity | cbn].
  assert (Hd : near - far = 0).
  { destruct H as [H | [H | H]]; [ | contradiction | lra].
    exfalso. apply Ht. rewrite H. apply tan_half_fov_0. }
  rewrite Hd, !truediv_zero. reflexivity.
Qed.

Lemma radians_m90_half : radians (-90) / 2 = - (PI / 4).
Proof. unfold radians. field. Qed.

Lemma tan_half_m90 : tan (radians (-90) / 2) = -1.
Proof. rewrite radians_m90_half, tan_neg, tan_PI4. reflexivity. Qed.

(** C1, as amended.  [perspective] validates nothing.  On the domain of
    the specification (fov in (0,180), aspect > 0, 0 < near < far) it
    returns the standard symmetric perspective matrix; more generally it
    returns that matrix whenever [tan (radians fov / 2)], [aspect] and
    [near - far] are all non-zero.  It raises [ZeroDivisionError] when
    [fov = 0], [aspect = 0] or [near = far]. *)
Theorem perspective_spec (fov aspect near far : R) :
  (perspective_domain fov aspect near far ->
     perspective fov aspect near far
     = Ok (standard_perspective fov aspect near far))
  /\ (tan (radians fov / 2) <> 0 -> aspect <> 0 -> near <> far ->
        perspective fov aspect near far
        = Ok (standard_perspective fov aspect near far))
  /\ (fov = 0 \/ aspect = 0 \/ near = far ->
        perspective fov aspect near far = Raise ZeroDivisionError).
Proof.
  split; [ | split].
  - intros (Hfov & Ha & Hn & Hnf).
    apply perspective_ok; [ | lra | lra].
    apply Rgt_not_eq, Rlt_gt, tan_half_fov_pos. exact Hfov.
  - apply perspective_ok.
  - apply perspective_raises.
Qed.

Lemma perspective_spec_witness :
  perspective 90 1 1 2 = Ok (standard_perspective 90 1 1 2).
Proof.
  apply (proj1 (perspective_spec 90 1 1 2)).
  unfold perspective_domain. lra.
Defined.

(** C1 fails as stated: with every argument outside the domain (fov = -90,
    aspect = -1, near = -1, far = -2) a matrix is returned. *)
Lemma perspective_outside_domain_returns :
  ~ (0 < -90 < 180) /\ -1 <= 0 /\ -1 <= 0 /\ -2 <= -1
  /\ perspective (-90) (-1) (-1) (-2)
     = Ok (from_matrix [ [1; 0; 0; 0]; [0; -1; 0; 0];
                         [0; 0; -3; 4]; [0; 0; -1; 0] ]).
Proof.
  repeat (split; [lra | ]).
  rewrite perspective_ok; [ | rewrite tan_half_m90; lra | lra | lra].
  unfold standard_perspective. rewrite tan_half_m90.
  do 2 f_equal. repeat (f_equal; try field).
Qed.

End transform_math.

Section look_at.
Open Scope R_scope.

Lemma vec_eq (a b c a' b' c' : R) :
  a = a' -> b = b' -> c = c' -> Vec a b c = Vec a' b' c'.
Proof. intros -> -> ->. reflexivity. Qed.

(** A vector of length zero is returned as it is. *)
Lemma normalize_vector_zero_length (v : vec) :
  length_vector v = 0 -> normalize_vector v = Ok v.
Proof.
  intros H. unfold normalize_vector.
  destruct (Req_dec_T (length_vector v) 0) as [_ | N];
    [reflexivity | contradiction].
Qed.

(** Any other vector has its components divided by its length. *)
Lemma normalize_vector_divides (v : vec) :
  length_vector v <> 0 ->
  normalize_vector v
  = Ok (Vec (vx v / length_vector v) (vy v / length_vector v)
            (vz v / length_vector v)).
Proof.
  intros H. unfold normalize_vector.
  destruct (Req_dec_T (length_vector v) 0) as [E | _]; [contradiction | ].
  rewrite !(truediv_ok _ _ H). reflexivity.
Qed.

Lemma normalize_vector_returns (v : vec) : exists d, normalize_vector v = Ok d.
Proof.
  destruct (Req_dec_T (length_vector v) 0) as [E | N].
  - exists v. apply normalize_vector_zero_length. exact E.
  - eexists. apply normalize_vector_divides. exact N.
Qed.

Lemma lookat_returns (eye target up : vec) :
  exists m, lookat eye target up = Ok m.
Proof.
  unfold lookat.
  destruct (normalize_vector_returns (subtract_vectors target eye)) as [d ->].
  destruct (normalize_vector_returns up) as [nup ->].
  rewrite !result_bind_ok. eexists. reflexivity.
Qed.

Lemma length_vector_same_point (eye : vec) :
  length_vector (subtract_vectors eye eye) = 0.
Proof.
  destruct eye as [x y z]. unfold length_vector, dot_vectors, subtract_vectors.
  cbn. replace ((x - x) * (x - x) + (y - y) * (y - y) + (z - z) * (z - z))
    with 0 by ring.
  apply sqrt_0.
Qed.

(** C2, as amended.  [lookat] has no guard: it returns a matrix for all
    arguments.  When [target = eye] the three direction rows of that matrix
    are zero; when [target - eye] and [up] have non-zero length, parallel or
    not, the matrix is built from the two quotients [d] and [nup] and the
    cross products [r = d x nup] and [u = r x d]. *)
Theorem lookat_unguarded (eye target up : vec) :
  (exists m, lookat eye target up = Ok m)
  /\ (target = eye ->
      lookat eye target up
      = Ok (from_matrix
              [ [0; 0; 0; - vx eye];
                [0; 0; 0; - vy eye];
                [0; 0; 0; - vz eye];
                [0; 0; 0; 1] ]))
  /\ (length_vector (subtract_vectors target eye) <> 0 ->
      length_vector up <> 0 ->
      let v := subtract_vectors target eye in
      let d := Vec (vx v / length_vector v) (vy v / length_vector v)
                   (vz v / length_vector v) in
      let nup := Vec (vx up / length_vector up) (vy up / length_vector up)
                     (vz up / length_vector up) in
      let r := cross_vectors d nup in
      let u := cross_vectors r d in
      lookat eye target up
      = Ok (from_matrix
              [ [vx r; vy r; vz r; - vx eye];
                [vx u; vy u; vz u; - vy eye];
                [- vx d; - vy d; - vz d; - vz eye];
                [0; 0; 0; 1] ])).
Proof.
  split; [apply lookat_returns | split].
  - intros ->. unfold lookat.
    rewrite (normalize_vector_zero_length _ (length_vector_same_point eye)).
    destruct (normalize_vector_returns up) as [nup ->].
    rewrite !result_bind_ok. cbv zeta.
    destruct eye as [x y z], nup as [a b c].
    unfold cross_vectors, subtract_vectors. cbn.
    do 2 f_equal.
    repeat (apply (f_equal2 cons);
            [repeat (apply (f_equal2 cons); [try ring | ]); reflexivity | ]).
    reflexivity.
  - intros Hv Hup. cbv zeta. unfold lookat.
    rewrite (normalize_vector_divides _ Hv), (normalize_vector_divides _ Hup).
    rewrite !result_bind_ok. reflexivity.
Qed.

Lemma length_vector_axis (k : R) : 0 < k -> length_vector (Vec 0 0 k) <> 0.
Proof.
  intros Hk. unfold length_vector, dot_vectors. cbn.
  apply Rgt_not_eq, Rlt_gt, sqrt_lt_R0. nra.
Qed.

Lemma lookat_unguarded_witness :
  lookat (Vec 1 2 3) (Vec 1 2 3) (Vec 0 0 1)
  = Ok (from_matrix
          [ [0; 0; 0; - 1];
            [0; 0; 0; - 2];
            [0; 0; 0; - 3];
            [0; 0; 0; 1] ])
  /\ (let v := subtract_vectors (Vec 0 0 5) (Vec 0 0 0) in
      let up := Vec 0 0 2 in
      let d := Vec (vx v / length_vector v) (vy v / length_vector v)
                   (vz v / length_vector v) in
      let nup := Vec (vx up / length_vector up) (vy up / length_vector up)
                     (vz up / length_vector up) in
      let r := cross_vectors d nup in
      let u := cross_vectors r d in
      lookat (Vec 0 0 0) (Vec 0 0 5) (Vec 0 0 2)
      = Ok (from_matrix
              [ [vx r; vy r; vz r; - 0];
                [vx u; vy u; vz u; - 0];
                [- vx d; - vy d; - vz d; - 0];
                [0; 0; 0; 1] ])).
Proof.
  split.
  - apply (proj1 (proj2 (lookat_unguarded (Vec 1 2 3) (Vec 1 2 3) (Vec 0 0 1)))).
    reflexivity.
  - apply (proj2 (proj2 (lookat_unguarded (Vec 0 0 0) (Vec 0 0 5) (Vec 0 0 2)))).
    + replace (subtract_vectors (Vec 0 0 5) (Vec 0 0 0)) with (Vec 0 0 5)
        by (unfold subtract_vectors; cbn; apply vec_eq; ring).
      apply length_vector_axis. lra.
    + apply length_vector_axis. lra.
Defined.

(** C2 fails as stated: [lookat(eye, eye, up)] returns a matrix, and so
    does [lookat] with [up] along the view direction. *)
Lemma lookat_degenerate_returns :
  (exists m, lookat (Vec 1 2 3) (Vec 1 2 3) (Vec 0 0 1) = Ok m)
  /\ parallel (subtract_vectors (Vec 0 0 5) (Vec 0 0 0)) (Vec 0 0 2)
  /\ (exists m, lookat (Vec 0 0 0) (Vec 0 0 5) (Vec 0 0 2) = Ok m).
Proof.
  split; [apply lookat_returns | split; [ | apply lookat_returns]].
  unfold parallel, cross_vectors, subtract_vectors. cbn. apply vec_eq; ring.
Qed.

End look_at.

(** ** Camera *)

Section camera.
Open Scope R_scope.
Import PerspectiveCamera.

(** C5.  [pan] turns the pointer delta [(mx, my)] into a displacement with
    the sines and cosines of [rz] and [rx], scales it by [distance / 10]
    and the pan step, adds it to [tx] and subtracts it from [ty], sets
    [target.x = -tx] and [target.y = -ty], and subtracts the same [dz]
    from [target.z] and from [distance]. *)
Theorem pan_effect (mouse : Mouse.t) (c : t) :
  let mx := Mouse.dx mouse in
  let my := Mouse.dy mouse in
  let dx := (mx * cos (radians (rz c))
             - my * sin (radians (rz c)) * cos (radians (rx c)))
            * (distance c / 10) in
  let dy := (my * cos (radians (rz c)) * cos (radians (rx c))
             + mx * sin (radians (rz c)))
            * (distance c / 10) in
  let dz := my * sin (radians (rx c)) * pan_delta c * (distance c / 10) in
  tx (pan mouse c) = tx c + pan_delta c * dx
  /\ ty (pan mouse c) = ty c - pan_delta c * dy
  /\ vx (target (pan mouse c)) = - tx (pan mouse c)
  /\ vy (target (pan mouse c)) = - ty (pan mouse c)
  /\ vz (target (pan mouse c)) = vz (target c) - dz
  /\ distance (pan mouse c) = distance c - dz.
Proof. cbv zeta. repeat split. Qed.

Lemma zoom_distance (steps : R) (c : t) :
  distance (zoom steps c)
  = distance c - steps * zoom_delta c * distance c.
Proof. reflexivity. Qed.



Lemma rotate_keeps_offsets (mouse : Mouse.t) (c : t) :
  tx (rotate mouse c) = tx c /\ ty (rotate mouse c) = ty c
  /\ target (rotate mouse c) = target c.
Proof. repeat split. Qed.

Lemma zoom_keeps_offsets (steps : R) (c : t) :
  tx (zoom steps c) = tx c /\ ty (zoom steps c) = ty c
  /\ target (zoom steps c) = target c.
Proof. repeat split. Qed.

Lemma pan_establishes (mouse : Mouse.t) (c : t) :
  target_follows_offsets (pan mouse c).
Proof. split; reflexivity. Qed.

Lemma apply_preserves (o : op) (c : t) :
  target_follows_offsets c -> target_follows_offsets (apply o c).
Proof.
  intros [Hx Hy]. destruct o as [mouse | mouse | steps]; cbn [apply].
  - destruct (rotate_keeps_offsets mouse c) as (Ex & Ey & Et).
    unfold target_follows_offsets. rewrite Ex, Ey, Et. split; assumption.
  - apply pan_establishes.
  - destruct (zoom_keeps_offsets steps c) as (Ex & Ey & Et).
    unfold target_follows_offsets. rewrite Ex, Ey, Et. split; assumption.
Qed.

(** C8.  Every camera state reachable from the initial state by rotate,
    pan and zoom operations satisfies [target.x = -tx] and
    [target.y = -ty]. *)
Theorem reachable_target_follows_offsets (c : t) :
  reachable c -> target_follows_offsets c.
Proof.
  induction 1 as [fov0 near0 far0 distance0 | o c Hc IH].
  - split; cbn; ring.
  - apply apply_preserves. exact IH.
Qed.

Lemma reachable_target_follows_offsets_witness :
  target_follows_offsets
    (apply (Pan (Mouse.Build (7, 3)%Z (2, 5)%Z ∅))
           (apply (Zoom 1) (apply (Rotate (Mouse.Build (1, 1)%Z (0, 0)%Z ∅))
                                  create))).
Proof.
  apply reachable_target_follows_offsets.
  do 3 apply reach_step. apply reach_init.
Defined.



End camera.

(** ** Dictionaries, loops and buffers *)

Section loops.

(** A dictionary comprehension [{k: f(k) for k in l}] maps every key of
    [l] to [f k]. *)
Lemma foldl_insert_lookup {A} (f : nat -> A) (l : list nat)
    (d0 : gmap nat A) (k : nat) :
  k ∈ l \/ d0 !! k = Some (f k) ->
  foldl (fun d x => <[x := f x]> d) d0 l !! k = Some (f k).
Proof.
  revert d0. induction l as [ | x l IH]; intros d0 H; cbn.
  - destruct H as [H | H]; [ | exact H]. inversion H.
  - apply IH. destruct (decide (x = k)) as [-> | Hne].
    + right. apply lookup_insert_eq.
    + destruct H as [H | H].
      * left. apply elem_of_cons in H. destruct H as [-> | H];
          [contradiction | exact H].
      * right. rewrite lookup_insert_ne; assumption.
Qed.

Lemma comprehension_lookup {A} (f : nat -> A) (l : list nat) (k : nat) :
  k ∈ l ->
  foldl (fun d x => <[x := f x]> d) (∅ : gmap nat A) l !! k = Some (f k).
Proof. intros H. apply foldl_insert_lookup. left. exact H. Qed.

Lemma getitem_ok {A} (d : gmap nat A) (k : nat) (a : A) :
  d !! k = Some a -> getitem d k = Ok a.
Proof. intros H. unfold getitem. rewrite H. reflexivity. Qed.

Context (d : gmap nat vec) (xyz : nat -> vec) (color : vec).

(** The loop of the node and vertex passes, and the loop of the edge
    passes with two positions per edge. *)
Lemma for_each_points (l : list nat) (accv accc : list vec) :
  (forall x, x ∈ l -> d !! x = Some (xyz x)) ->
  for_each
    (fun node '(vertices, colors) =>
       p ← getitem d node ;
       Ok (vertices ++ [p], colors ++ [color]))
    l (accv, accc)
  = Ok (accv ++ map xyz l, accc ++ replicate (length l) color).
Proof.
  revert accv accc. induction l as [ | x l IH]; intros accv accc H; cbn.
  - rewrite !app_nil_r. reflexivity.
  - rewrite (getitem_ok d x (xyz x)) by (apply H; left).
    cbn. rewrite IH by (intros y Hy; apply H; right; exact Hy).
    rewrite <- !app_assoc. reflexivity.
Qed.

Lemma edge_positions_length (es : list (nat * nat)) :
  length (edge_positions xyz es) = 2 * length es.
Proof.
  unfold edge_positions. induction es as [ | [u v] es IH]; cbn in *; lia.
Qed.

Lemma for_each_lines (l : list (nat * nat)) (accv accc : list vec) :
  (forall u v, (u, v) ∈ l -> d !! u = Some (xyz u) /\ d !! v = Some (xyz v)) ->
  for_each
    (fun '(u, v) '(edges, colors) =>
       pu ← getitem d u ;
       pv ← getitem d v ;
       Ok (edges ++ [pu] ++ [pv], colors ++ [color] ++ [color]))
    l (accv, accc)
  = Ok (accv ++ edge_positions xyz l,
        accc ++ replicate (2 * length l) color).
Proof.
  revert accv accc. induction l as [ | [u v] l IH]; intros accv accc H.
  - cbn. rewrite !app_nil_r. reflexivity.
  - destruct (H u v) as [Hu Hv]; [left | ].
    cbn [for_each]. cbv beta iota.
    rewrite (getitem_ok d u (xyz u) Hu), result_bind_ok.
    rewrite (getitem_ok d v (xyz v) Hv), result_bind_ok.
    rewrite IH by (intros u' v' Hy; apply H; right; exact Hy).
    f_equal. f_equal.
    + unfold edge_positions. cbn. rewrite <- !app_assoc. reflexivity.
    + replace (2 * length ((u, v) :: l)) with (S (S (2 * length l)))
        by (cbn; lia).
      cbn. rewrite <- !app_assoc. reflexivity.
Qed.

End loops.

Section gl.

Lemma st_bind_ok {S A B} (m : st S A) (k : A -> st S B) (s s' : S) (a : A) :
  m s = (Ok a, s') -> (m ≫= k) s = k a s'.
Proof. intros H. unfold mbind, st_bind. rewrite H. reflexivity. Qed.

Lemma st_bind_raise {S A B} (m : st S A) (k : A -> st S B) (s s' : S) (e : exn) :
  m s = (Raise e, s') -> (m ≫= k) s = (Raise e, s').
Proof. intros H. unfold mbind, st_bind. rewrite H. reflexivity. Qed.

Lemma fresh_name_fresh {A} (m : gmap nat A) :
  m !! fresh_name m = None /\ fresh_name m <> 0.
Proof.
  unfold fresh_name.
  pose proof (is_fresh ({[0]} ∪ dom m)) as H. split.
  - apply not_elem_of_dom. set_solver.
  - set_solver.
Qed.

Lemma make_vertex_buffer_spec (data : list R) (s : GLState) :
  make_vertex_buffer data s
  = (Ok (fresh_name (buffers s)),
     MkGL (vertex_arrays s)
          (<[fresh_name (buffers s) := data]> (buffers s))
          (vertex_array_binding s) (fresh_name (buffers s)) (point_size s)).
Proof.
  unfold make_vertex_buffer, GL.glGenBuffers, GL.glBindBuffer,
    GL.glBufferData, modify, mbind, st_bind, mret, st_ret. cbn.
  rewrite insert_insert_eq. reflexivity.
Qed.

(** The end of every pass: the positions and the colors are uploaded to
    two new buffers; vertex arrays are not touched. *)
Lemma upload_pass (verts cols : list R) (s : GLState) :
  exists v c s',
    (v ← make_vertex_buffer verts ;
     c ← make_vertex_buffer cols ;
     mret (MkPass v c)) s = (Ok (MkPass v c), s')
    /\ buffers s' = <[c := cols]> (<[v := verts]> (buffers s))
    /\ buffers s' !! v = Some verts
    /\ buffers s' !! c = Some cols
    /\ vertex_arrays s' = vertex_arrays s
    /\ vertex_array_binding s' = vertex_array_binding s.
Proof.
  set (v := fresh_name (buffers s)).
  set (s1 := MkGL (vertex_arrays s) (<[v := verts]> (buffers s))
                  (vertex_array_binding s) v (point_size s)).
  set (c := fresh_name (buffers s1)).
  exists v, c. eexists.
  split.
  { erewrite st_bind_ok by apply make_vertex_buffer_spec.
    erewrite st_bind_ok by apply make_vertex_buffer_spec.
    reflexivity. }
  cbn.
  assert (Hc : buffers s1 !! c = None) by apply fresh_name_fresh.
  assert (Hne : c <> v).
  { intros E. rewrite E in Hc. cbn in Hc. rewrite lookup_insert_eq in Hc.
    discriminate. }
  repeat split.
  - rewrite lookup_insert_ne by exact Hne. apply lookup_insert_eq.
  - apply lookup_insert_eq.
Qed.

End gl.

(** ** Network passes *)

Section network.
Import NetworkObject.

Context (self : NetworkObject.t) (n : Network.t).
Hypothesis Hdata : _data self = Geo_Network n.

Lemma node_xyz_ok :
  node_xyz self
  = Ok (foldl (fun d node => <[node := Network.node_attributes n node]> d)
              ∅ (Network.nodes n)).
Proof. unfold node_xyz. rewrite Hdata. reflexivity. Qed.

(** The node pass uploads one position per node, in the order of
    [nodes()]. *)
Lemma nodes_pass (s : GLState) :
  exists v c s',
    nodes self s = (Ok (MkPass v c), s')
    /\ buffers s' !! v
       = Some (flatten (map (Network.node_attributes n) (Network.nodes n))).
Proof.
  unfold nodes. rewrite node_xyz_ok, Hdata. cbn [as_network].
  erewrite st_bind_ok by reflexivity.
  erewrite st_bind_ok by reflexivity.
  rewrite (for_each_points _ (Network.node_attributes n))
    by (intros x Hx; apply comprehension_lookup; exact Hx).
  erewrite st_bind_ok by reflexivity.
  cbv beta iota. rewrite !app_nil_l.
  destruct (upload_pass
              (flatten (map (Network.node_attributes n) (Network.nodes n)))
              (flatten (replicate (length (Network.nodes n)) default_color_nodes))
              s) as (v & c & s' & Hrun & _ & Hv & _).
  exists v, c, s'. split; assumption.
Qed.

(** The edge pass uploads the two endpoint positions of every edge, in the
    order of [edges()]. *)
Lemma edges_pass (s : GLState) :
  Network.wf n ->
  exists v c s',
    edges self s = (Ok (MkPass v c), s')
    /\ buffers s' !! v
       = Some (flatten (edge_positions (Network.node_attributes n)
                                       (Network.edges n))).
Proof.
  intros Hwf.
  unfold edges. rewrite node_xyz_ok, Hdata. cbn [as_network].
  erewrite st_bind_ok by reflexivity.
  erewrite st_bind_ok by reflexivity.
  rewrite (for_each_lines _ (Network.node_attributes n)).
  2:{ intros u w Huw. destruct (Hwf u w Huw) as [Hu Hw].
      split; apply comprehension_lookup; assumption. }
  erewrite st_bind_ok by reflexivity.
  cbv beta iota. rewrite !app_nil_l.
  destruct (upload_pass
              (flatten (edge_positions (Network.node_attributes n)
                                       (Network.edges n)))
              (flatten (replicate (2 * length (Network.edges n))
                                  default_color_edges))
              s) as (v & c & s' & Hrun & _ & Hv & _).
  exists v, c, s'. split; assumption.
Qed.

End network.

(** ** Mesh passes *)

Section face_loop.

Context (d : gmap nat vec) (xyz : nat -> vec) (color : vec).
Context (fv : nat -> list nat).

(** The body both face loops run for one face. *)
Let body : nat -> list vec * list vec -> result (list vec * list vec) :=
  fun face '(faces, colors) =>
    let vertices := fv face in
    match vertices with
    | [a; b; c] =>
        pa ← getitem d a ;
        pb ← getitem d b ;
        pc ← getitem d c ;
        Ok (faces ++ [pa] ++ [pb] ++ [pc],
            colors ++ [color] ++ [color] ++ [color])
    | [a; b; c; d'] =>
        pa ← getitem d a ;
        pb ← getitem d b ;
        pc ← getitem d c ;
        pa' ← getitem d a ;
        pc' ← getitem d c ;
        pd ← getitem d d' ;
        Ok (faces ++ [pa] ++ [pb] ++ [pc] ++ [pa'] ++ [pc'] ++ [pd],
            colors ++ [color] ++ [color] ++ [color]
                   ++ [color] ++ [color] ++ [color])
    | _ => Raise NotImplementedError
    end.

Lemma body_supported (f : nat) (accv accc : list vec) :
  supported_face (fv f) ->
  (forall v, v ∈ fv f -> d !! v = Some (xyz v)) ->
  body f (accv, accc)
  = Ok (accv ++ triangle_positions xyz (default [] (triangulate (fv f))),
        accc ++ replicate (3 * length (default [] (triangulate (fv f)))) color).
Proof.
  intros Hs Hin. unfold body. cbv zeta.
  destruct (fv f) as [ | a [ | b [ | c [ | e [ | g r]]]]];
    try (destruct Hs as [Hs | Hs]; cbn in Hs; lia).
  - rewrite (getitem_ok d a (xyz a)), (getitem_ok d b (xyz b)),
      (getitem_ok d c (xyz c)) by (apply Hin; set_solver).
    reflexivity.
  - rewrite (getitem_ok d a (xyz a)), (getitem_ok d b (xyz b)),
      (getitem_ok d c (xyz c)), (getitem_ok d e (xyz e))
      by (apply Hin; set_solver).
    reflexivity.
Qed.

Lemma body_unsupported (f : nat) (acc : list vec * list vec) :
  ~ supported_face (fv f) -> body f acc = Raise NotImplementedError.
Proof.
  intros Hs. unfold body. destruct acc as [accv accc]. cbv zeta.
  destruct (fv f) as [ | a [ | b [ | c [ | e [ | g r]]]]]; try reflexivity.
  - exfalso. apply Hs. left. reflexivity.
  - exfalso. apply Hs. right. reflexivity.
Qed.

Lemma supported_face_dec (face : list nat) :
  {supported_face face} + {~ supported_face face}.
Proof.
  unfold supported_face.
  destruct (decide (length face = 3)); [left; left; assumption | ].
  destruct (decide (length face = 4)); [left; right; assumption | ].
  right. intros [H | H]; contradiction.
Qed.

(** All faces supported: the loop appends the triangles of every face. *)
Lemma for_each_faces (l : list nat) (accv accc : list vec) :
  (forall f, f ∈ l -> supported_face (fv f)) ->
  (forall f v, f ∈ l -> v ∈ fv f -> d !! v = Some (xyz v)) ->
  for_each body l (accv, accc)
  = Ok (accv ++ triangle_positions xyz (face_triangles fv l),
        accc ++ replicate (3 * length (face_triangles fv l)) color).
Proof.
  revert accv accc.
  induction l as [ | f l IH]; intros accv accc Hs Hin.
  - cbn. rewrite !app_nil_r. reflexivity.
  - cbn [for_each].
    rewrite body_supported;
      [ | apply Hs; left | intros v Hv; apply (Hin f v); [left | exact Hv] ].
    rewrite IH;
      [ | intros g Hg; apply Hs; right; exact Hg
        | intros g v Hg Hv; apply (Hin g v); [right; exact Hg | exact Hv] ].
    unfold face_triangles, triangle_positions. cbn [map concat].
    rewrite map_app, concat_app, length_app, <- !app_assoc.
    rewrite Nat.mul_add_distr_l, replicate_add. reflexivity.
Qed.

(** Some face unsupported: the loop raises [NotImplementedError]. *)
Lemma for_each_faces_unsupported (l : list nat) (acc : list vec * list vec) :
  (exists f, f ∈ l /\ ~ supported_face (fv f)) ->
  (forall f v, f ∈ l -> v ∈ fv f -> d !! v = Some (xyz v)) ->
  for_each body l acc = Raise NotImplementedError.
Proof.
  revert acc.
  induction l as [ | f l IH]; intros [accv accc] (g & Hg & Hbad) Hin.
  - inversion Hg.
  - cbn [for_each].
    destruct (supported_face_dec (fv f)) as [Hs | Hs].
    + rewrite body_supported;
        [ | exact Hs | intros v Hv; apply (Hin f v); [left | exact Hv] ].
      apply IH.
      * exists g. split; [ | exact Hbad].
        apply elem_of_cons in Hg. destruct Hg as [-> | Hg];
          [contradiction | exact Hg].
      * intros h v Hh Hv. apply (Hin h v); [right; exact Hh | exact Hv].
    + rewrite body_unsupported by exact Hs. reflexivity.
Qed.

End face_loop.

Section mesh.
Import MeshObject.

Context (self : MeshObject.t) (m : Mesh.t).
Hypothesis Hmesh : _mesh self = Geo_Mesh m.

Lemma vertex_xyz_ok :
  vertex_xyz self
  = Ok (foldl (fun d vertex => <[vertex := Mesh.vertex_attributes m vertex]> d)
              ∅ (Mesh.vertices m)).
Proof. unfold vertex_xyz. rewrite Hmesh. reflexivity. Qed.

Lemma wf_lookup (f v : nat) :
  Mesh.wf m -> f ∈ Mesh.faces m -> v ∈ Mesh.face_vertices m f ->
  foldl (fun d vertex => <[vertex := Mesh.vertex_attributes m vertex]> d)
        (∅ : gmap nat vec) (Mesh.vertices m) !! v
  = Some (Mesh.vertex_attributes m v).
Proof.
  intros Hwf Hf Hv. apply comprehension_lookup. apply (Hwf f v Hf Hv).
Qed.

Lemma front_faces_ok :
  Mesh.wf m ->
  (forall f, f ∈ Mesh.faces m -> supported_face (Mesh.face_vertices m f)) ->
  front_faces self
  = Ok (triangle_positions (Mesh.vertex_attributes m) (mesh_triangles m),
        replicate (3 * length (mesh_triangles m)) (default_color_front (cls self))).
Proof.
  intros Hwf Hs. unfold front_faces.
  rewrite vertex_xyz_ok, Hmesh. cbn [as_mesh]. rewrite !result_bind_ok.
  cbv zeta.
  etransitivity.
  - apply (for_each_faces _ (Mesh.vertex_attributes m) _ (Mesh.face_vertices m)).
    + exact Hs.
    + intros f v Hf Hv. apply (wf_lookup f v Hwf Hf Hv).
  - reflexivity.
Qed.

Lemma back_faces_ok :
  Mesh.wf m ->
  (forall f, f ∈ Mesh.faces m -> supported_face (Mesh.face_vertices m f)) ->
  back_faces self
  = Ok (triangle_positions (Mesh.vertex_attributes m)
                           (mesh_triangles (Mesh.flip_cycles m)),
        replicate (3 * length (mesh_triangles (Mesh.flip_cycles m)))
                  (default_color_back (cls self))).
Proof.
  intros Hwf Hs. unfold back_faces.
  rewrite vertex_xyz_ok, Hmesh. cbn [as_mesh]. rewrite !result_bind_ok.
  cbv zeta.
  etransitivity.
  - apply (for_each_faces _ (Mesh.vertex_attributes m) _
             (fun f => reverse (Mesh.face_vertices m f))).
    + intros f Hf. unfold supported_face. rewrite length_reverse.
      apply Hs. exact Hf.
    + intros f v Hf Hv. apply (proj1 (elem_of_reverse v _)) in Hv.
      apply (wf_lookup f v Hwf Hf Hv).
  - reflexivity.
Qed.

Lemma front_faces_raises :
  Mesh.wf m ->
  (exists f, f ∈ Mesh.faces m /\ ~ supported_face (Mesh.face_vertices m f)) ->
  front_faces self = Raise NotImplementedError.
Proof.
  intros Hwf Hbad. unfold front_faces.
  rewrite vertex_xyz_ok, Hmesh. cbn [as_mesh]. rewrite !result_bind_ok.
  cbv zeta.
  etransitivity.
  - apply (for_each_faces_unsupported _ (Mesh.vertex_attributes m) _
             (Mesh.face_vertices m)).
    + exact Hbad.
    + intros f v Hf Hv. apply (wf_lookup f v Hwf Hf Hv).
  - reflexivity.
Qed.

Lemma front_raises (s : GLState) :
  front_faces self = Raise NotImplementedError ->
  front self s = (Raise NotImplementedError, s).
Proof.
  intros H. unfold front. rewrite H. apply st_bind_raise. reflexivity.
Qed.

Lemma front_uploads (s : GLState) (faces colors : list vec) :
  front_faces self = Ok (faces, colors) ->
  exists v c s',
    front self s = (Ok (MkPass v c), s')
    /\ buffers s' !! v = Some (flatten faces)
    /\ buffers s' !! c = Some (flatten colors).
Proof.
  intros H. unfold front. rewrite H.
  erewrite st_bind_ok by reflexivity.
  destruct (upload_pass (flatten faces) (flatten colors) s)
    as (v & c & s' & Hrun & _ & Hv & Hc & _).
  exists v, c, s'. repeat split; assumption.
Qed.

Lemma back_uploads (s : GLState) (faces colors : list vec) :
  back_faces self = Ok (faces, colors) ->
  exists v c s',
    back self s = (Ok (MkPass v c), s')
    /\ buffers s' !! v = Some (flatten faces)
    /\ buffers s' !! c = Some (flatten colors).
Proof.
  intros H. unfold back. rewrite H.
  erewrite st_bind_ok by reflexivity.
  destruct (upload_pass (flatten faces) (flatten colors) s)
    as (v & c & s' & Hrun & _ & Hv & Hc & _).
  exists v, c, s'. repeat split; assumption.
Qed.

End mesh.

(** ** Counting triangles *)

Section counting.

Lemma triangle_positions_length (xyz : nat -> vec) (ts : list triangle) :
  length (triangle_positions xyz ts) = 3 * length ts.
Proof.
  unfold triangle_positions.
  induction ts as [ | [[a b] c] ts IH]; cbn in *; lia.
Qed.

Lemma triangulate_length (face : list nat) :
  supported_face face ->
  length (default [] (triangulate face)) = length face - 2.
Proof.
  intros Hs.
  destruct face as [ | a [ | b [ | c [ | e [ | g r]]]]];
    try (destruct Hs as [Hs | Hs]; cbn in Hs; lia); reflexivity.
Qed.

Lemma face_triangles_reverse_length (fv : nat -> list nat) (l : list nat) :
  (forall f, f ∈ l -> supported_face (fv f)) ->
  length (face_triangles (fun f => reverse (fv f)) l)
  = length (face_triangles fv l).
Proof.
  unfold face_triangles.
  induction l as [ | f l IH]; intros Hs; [reflexivity | ].
  cbn [map concat]. rewrite !length_app.
  rewrite IH by (intros g Hg; apply Hs; right; exact Hg).
  rewrite !triangulate_length.
  - rewrite length_reverse. reflexivity.
  - apply Hs. left.
  - unfold supported_face. rewrite length_reverse. apply Hs. left.
Qed.

Lemma face_triangles_quads (fv : nat -> list nat) (l : list nat) :
  (forall f, f ∈ l -> length (fv f) = 4) ->
  length (face_triangles fv l) = 2 * length l.
Proof.
  unfold face_triangles.
  induction l as [ | f l IH]; intros Hq; [reflexivity | ].
  cbn [map concat]. rewrite length_app.
  rewrite IH by (intros g Hg; apply Hq; right; exact Hg).
  rewrite triangulate_length by (right; apply Hq; left).
  rewrite (Hq f) by left. cbn. lia.
Qed.

End counting.

(** C4.  For a mesh whose faces are all triangles or quadrilaterals, the
    front pass uploads the positions of the triangles of every face, a
    quadrilateral [(a, b, c, d)] giving [(a, b, c)] and [(a, c, d)]; the back
    pass uploads the triangles of the same faces with their vertex order
    reversed; both passes have the same number of triangles, and that number
    is [2 * faceCount] when all faces are quadrilaterals. *)
Theorem face_passes_triangulate (self : MeshObject.t) (m : Mesh.t) (s : GLState) :
  MeshObject._mesh self = Geo_Mesh m ->
  Mesh.wf m ->
  (forall f, f ∈ Mesh.faces m -> supported_face (Mesh.face_vertices m f)) ->
  let xyz := Mesh.vertex_attributes m in
  (exists v c s',
      MeshObject.front self s = (Ok (MkPass v c), s')
      /\ buffers s' !! v
         = Some (flatten (triangle_positions xyz (mesh_triangles m))))
  /\ (exists v c s',
         MeshObject.back self s = (Ok (MkPass v c), s')
         /\ buffers s' !! v
            = Some (flatten (triangle_positions xyz
                               (mesh_triangles (Mesh.flip_cycles m)))))
  /\ (forall f a b c d, f ∈ Mesh.faces m ->
        Mesh.face_vertices m f = [a; b; c; d] ->
        triangulate (Mesh.face_vertices m f) = Some [(a, b, c); (a, c, d)]
        /\ triangulate (Mesh.face_vertices (Mesh.flip_cycles m) f)
           = Some [(d, c, b); (d, b, a)])
  /\ length (triangle_positions xyz (mesh_triangles m))
     = 3 * length (mesh_triangles m)
  /\ length (mesh_triangles (Mesh.flip_cycles m)) = length (mesh_triangles m)
  /\ ((forall f, f ∈ Mesh.faces m -> length (Mesh.face_vertices m f) = 4) ->
      length (mesh_triangles m) = 2 * length (Mesh.faces m)
      /\ length (mesh_triangles (Mesh.flip_cycles m)) = 2 * length (Mesh.faces m)).
Proof.
  intros Hmesh Hwf Hs xyz.
  assert (Hflip : length (mesh_triangles (Mesh.flip_cycles m))
                  = length (mesh_triangles m)).
  { apply (face_triangles_reverse_length (Mesh.face_vertices m)). exact Hs. }
  split; [ | split; [ | split; [ | split; [ | split]]]].
  - destruct (front_uploads self s _ _ (front_faces_ok self m Hmesh Hwf Hs))
      as (v & c & s' & Hrun & Hv & _).
    exists v, c, s'. split; assumption.
  - destruct (back_uploads self s _ _ (back_faces_ok self m Hmesh Hwf Hs))
      as (v & c & s' & Hrun & Hv & _).
    exists v, c, s'. split; assumption.
  - intros f a b c d _ E. cbn. rewrite E. split; reflexivity.
  - apply triangle_positions_length.
  - exact Hflip.
  - intros Hq. rewrite Hflip. split; apply face_triangles_quads; exact Hq.
Qed.

Lemma face_passes_triangulate_witness :
  exists v c s',
    MeshObject.front (Samples.mesh_object Samples.quad) gl_empty
    = (Ok (MkPass v c), s')
    /\ buffers s' !! v
       = Some (flatten (triangle_positions Samples.coordinate
                          [(0, 1, 2); (0, 2, 3)])).
Proof.
  refine (proj1 (face_passes_triangulate
                   (Samples.mesh_object Samples.quad) Samples.quad gl_empty
                   eq_refl _ _)).
  - intros f v _ Hv. exact Hv.
  - intros f _. right. reflexivity.
Defined.

(** ** Initialisation of a mesh object *)

Section initialisation.
Import MeshObject.

Lemma on_snd_run {S1 S2 A} (m : st S2 A) (s1 : S1) (s2 s2' : S2) (r : result A) :
  m s2 = (r, s2') -> on_snd m (s1, s2) = (r, (s1, s2')).
Proof. intros H. unfold on_snd. cbn. rewrite H. reflexivity. Qed.

(** A pass that raises at once stops [attach] after the vertex array is
    bound and location 0 enabled. *)
Lemma attach_first_raise (vao : nat) (pass : st GLState pass_buffers)
    (e : exn) (s : GLState) :
  (forall s0, pass s0 = (Raise e, s0)) ->
  attach vao pass s
  = (Raise e,
     MkGL (alter (fun v => MkVAO ({[0]} ∪ enabled v) (pointers v))
                 vao (vertex_arrays s))
          (buffers s) vao (array_buffer_binding s) (point_size s)).
Proof.
  intros H. unfold attach.
  erewrite st_bind_ok by reflexivity.
  erewrite st_bind_ok by reflexivity.
  erewrite st_bind_raise by apply H.
  reflexivity.
Qed.

Lemma size_insert_fresh {A} (m : gmap nat A) (x : A) :
  size (<[fresh_name m := x]> m) = S (size m).
Proof. apply map_size_insert_None. apply fresh_name_fresh. Qed.

Lemma size_alter {A} (f : A -> A) (k : nat) (m : gmap nat A) :
  size (alter f k m) = size m.
Proof.
  rewrite <- !(size_dom (D := gset nat)). rewrite dom_alter_L. reflexivity.
Qed.

(** [init] on a mesh with an unsupported face: the four vertex arrays are
    generated and stored in [_vao], then the front pass raises before any
    buffer exists. *)
Lemma init_raises (self : t) (m : Mesh.t) (s : GLState) :
  _mesh self = Geo_Mesh m ->
  Mesh.wf m ->
  (exists f, f ∈ Mesh.faces m /\ ~ supported_face (Mesh.face_vertices m f)) ->
  exists vs s',
    init (self, s) = (Raise NotImplementedError, (set_vao vs self, s'))
    /\ buffers s' = buffers s
    /\ size (vertex_arrays s') = 4 + size (vertex_arrays s)
    /\ vertex_array_binding s' = vao_front vs
    /\ is_Some (vertex_arrays s' !! vao_front vs).
Proof.
  intros Hmesh Hwf Hbad. unfold init.
  erewrite st_bind_ok by (apply on_snd_run; reflexivity).
  erewrite st_bind_ok by (apply on_snd_run; reflexivity).
  erewrite st_bind_ok by (apply on_snd_run; reflexivity).
  erewrite st_bind_ok by (apply on_snd_run; reflexivity).
  erewrite st_bind_ok by reflexivity.
  erewrite st_bind_ok by reflexivity.
  cbn [fst snd vertex_arrays buffers vertex_array_binding
       array_buffer_binding point_size].
  set (va0 := vertex_arrays s).
  set (f := fresh_name va0).
  set (va1 := <[f := MkVAO ∅ ∅]> va0).
  set (b := fresh_name va1).
  set (va2 := <[b := MkVAO ∅ ∅]> va1).
  set (e := fresh_name va2).
  set (va3 := <[e := MkVAO ∅ ∅]> va2).
  set (v := fresh_name va3).
  set (va4 := <[v := MkVAO ∅ ∅]> va3).
  exists (MkVaos f b e v). eexists. split.
  { eapply st_bind_raise. apply on_snd_run. apply attach_first_raise.
    intros s0. apply front_raises.
    apply (front_faces_raises _ m); assumption. }
  cbn [buffers vertex_arrays vertex_array_binding vao_front].
  split; [reflexivity | ]. split; [ | split; [reflexivity | ]].
  - rewrite size_alter. unfold va4, v, va3, e, va2, b, va1, f.
    rewrite !size_insert_fresh. reflexivity.
  - apply elem_of_dom. rewrite dom_alter_L. unfold va4, va3, va2, va1.
    rewrite !dom_insert_L. do 3 apply elem_of_union_r.
    apply elem_of_union_l, elem_of_singleton. reflexivity.
Qed.

End initialisation.

Lemma pentagon_wf : Mesh.wf Samples.pentagon.
Proof. intros f v _ Hv. exact Hv. Qed.

Lemma pentagon_unsupported :
  exists f, f ∈ Mesh.faces Samples.pentagon
            /\ ~ supported_face (Mesh.face_vertices Samples.pentagon f).
Proof.
  exists 0. split; [left | ].
  intros [H | H]; cbn in H; discriminate.
Qed.

(** C3, as amended.  A mesh with a face of neither three nor four vertices
    makes the front pass raise [NotImplementedError]: the face is not
    skipped and the pass creates no buffer.  [init] raises the same error
    and leaves the buffers as they were, but the four vertex arrays it
    generated first stay allocated (and stored in [_vao]), the front one
    bound. *)
Theorem unsupported_face_raises (self : MeshObject.t) (m : Mesh.t) (s : GLState) :
  MeshObject._mesh self = Geo_Mesh m ->
  Mesh.wf m ->
  (exists f, f ∈ Mesh.faces m /\ ~ supported_face (Mesh.face_vertices m f)) ->
  MeshObject.front_faces self = Raise NotImplementedError
  /\ MeshObject.front self s = (Raise NotImplementedError, s)
  /\ exists vs s',
       MeshObject.init (self, s)
       = (Raise NotImplementedError, (MeshObject.set_vao vs self, s'))
       /\ buffers s' = buffers s
       /\ size (vertex_arrays s') = 4 + size (vertex_arrays s)
       /\ vertex_array_binding s' = MeshObject.vao_front vs
       /\ is_Some (vertex_arrays s' !! MeshObject.vao_front vs).
Proof.
  intros Hmesh Hwf Hbad.
  assert (Hf := front_faces_raises self m Hmesh Hwf Hbad).
  split; [exact Hf | ]. split.
  - apply front_raises. exact Hf.
  - apply (init_raises self m s Hmesh Hwf Hbad).
Qed.

Lemma unsupported_face_raises_witness :
  MeshObject.front (Samples.mesh_object Samples.pentagon) gl_empty
  = (Raise NotImplementedError, gl_empty).
Proof.
  exact (proj1 (proj2 (unsupported_face_raises
                         (Samples.mesh_object Samples.pentagon)
                         Samples.pentagon gl_empty eq_refl
                         pentagon_wf pentagon_unsupported))).
Defined.

(** C3 fails as stated: after the failed [init] of an object whose mesh has
    a face of five vertices, started with nothing allocated, four vertex
    arrays are allocated. *)
Lemma init_leaves_vertex_arrays :
  vertex_arrays gl_empty = ∅
  /\ exists self' s',
       MeshObject.init (Samples.mesh_object Samples.pentagon, gl_empty)
       = (Raise NotImplementedError, (self', s'))
       /\ size (vertex_arrays s') = 4.
Proof.
  split; [reflexivity | ].
  destruct (init_raises (Samples.mesh_object Samples.pentagon)
              Samples.pentagon gl_empty eq_refl
              pentagon_wf pentagon_unsupported)
    as (vs & s' & Hrun & _ & Hsize & _).
  exists (MeshObject.set_vao vs (Samples.mesh_object Samples.pentagon)), s'.
  split; [exact Hrun | ]. rewrite Hsize. reflexivity.
Qed.

(** ** Network buffers *)

Lemma path_network_wf : Network.wf Samples.path_network.
Proof.
  intros u v H. cbn in H.
  repeat (apply elem_of_cons in H; destruct H as [H | H];
          [inversion H; subst; split; cbn; set_solver | ]).
  inversion H.
Qed.

(** C7.  For a network with 4 nodes and 3 edges the node pass uploads
    exactly 4 positions, one per node, and the edge pass exactly 6, the two
    endpoints of each edge. *)
Theorem network_buffer_entries (self : NetworkObject.t) (n : Network.t) (s : GLState) :
  NetworkObject._data self = Geo_Network n ->
  Network.wf n ->
  length (Network.nodes n) = 4 ->
  length (Network.edges n) = 3 ->
  (exists v c s' positions,
      NetworkObject.nodes self s = (Ok (MkPass v c), s')
      /\ buffers s' !! v = Some (flatten positions)
      /\ positions = map (Network.node_attributes n) (Network.nodes n)
      /\ length positions = 4)
  /\ (exists v c s' positions,
         NetworkObject.edges self s = (Ok (MkPass v c), s')
         /\ buffers s' !! v = Some (flatten positions)
         /\ positions = edge_positions (Network.node_attributes n) (Network.edges n)
         /\ length positions = 6).
Proof.
  intros Hdata Hwf Hn He. split.
  - destruct (nodes_pass self n Hdata s) as (v & c & s' & Hrun & Hv).
    exists v, c, s', (map (Network.node_attributes n) (Network.nodes n)).
    repeat split; [exact Hrun | exact Hv | ].
    rewrite length_map. exact Hn.
  - destruct (edges_pass self n Hdata s Hwf) as (v & c & s' & Hrun & Hv).
    exists v, c, s',
      (edge_positions (Network.node_attributes n) (Network.edges n)).
    repeat split; [exact Hrun | exact Hv | ].
    rewrite edge_positions_length, He. reflexivity.
Qed.

Lemma network_buffer_entries_witness :
  exists v c s' positions,
    NetworkObject.edges (Samples.network_object Samples.path_network) gl_empty
    = (Ok (MkPass v c), s')
    /\ buffers s' !! v = Some (flatten positions)
    /\ positions
       = edge_positions Samples.coordinate [(0, 1); (1, 2); (2, 3)]
    /\ length positions = 6.
Proof.
  exact (proj2 (network_buffer_entries
                  (Samples.network_object Samples.path_network)
                  Samples.path_network gl_empty eq_refl
                  path_network_wf eq_refl eq_refl)).
Defined.

(** ** Viewer *)

(** C10.  When the runtime type of the data has no entry in the registry,
    [add] raises [KeyError] before any constructor is called and leaves the
    object collection unchanged. *)
Theorem add_unregistered (DTYPE_OTYPE : gmap string Viewer.otype)
    (data : Viewer.Data) (kwargs : gmap string pyval) (s : Viewer.t) :
  DTYPE_OTYPE !! Viewer.dtype data = None ->
  Viewer.add DTYPE_OTYPE data kwargs s = (Raise KeyError, s).
Proof.
  intros H. unfold Viewer.add. rewrite H.
  apply st_bind_raise. reflexivity.
Qed.

Lemma add_unregistered_witness :
  Viewer.add Viewer.DTYPE_OTYPE_main Samples.pointcloud ∅ Viewer.create
  = (Raise KeyError, Viewer.create).
Proof.
  apply add_unregistered. vm_compute. reflexivity.
Defined.

(** A registered type, for comparison: the constructor runs and the object
    is stored under the identity of the data. *)
Lemma add_registered_mesh (m : Mesh.t) (k : nat) :
  Viewer.add Viewer.DTYPE_OTYPE_main (Viewer.MkData k "Mesh" (Geo_Mesh m)) ∅
             Viewer.create
  = (Ok tt,
     Viewer.Build [(k, Viewer.Obj_Mesh (Samples.mesh_object m))] [k]).
Proof.
  unfold Viewer.add.
  replace (Viewer.DTYPE_OTYPE_main !! Viewer.dtype (Viewer.MkData k "Mesh" (Geo_Mesh m)))
    with (Some Viewer.MeshObject_) by (vm_compute; reflexivity).
  erewrite st_bind_ok by reflexivity.
  erewrite st_bind_ok by reflexivity.
  erewrite st_bind_ok.
  2:{ unfold lift, Viewer.construct.
      rewrite decide_True by (rewrite dom_empty_L; apply empty_subseteq).
      reflexivity. }
  reflexivity.
Qed.

(** * Further properties *)

(** ** Projections *)

Section projections.
Open Scope R_scope.

Lemma ortho_ok (left right bottom top near far : R) :
  right <> left -> top <> bottom -> far <> near ->
  ortho left right bottom top near far
  = Ok (from_matrix
          [ [2 / (right - left); 0; 0; - (right + left) / (right - left)];
            [0; 2 / (top - bottom); 0; - (top + bottom) / (top - bottom)];
            [0; 0; -2 / (far - near); - (far + near) / (far - near)];
            [0; 0; 0; 1] ]).
Proof.
  intros Hx Hy Hz. unfold ortho. cbv zeta.
  assert (Hdx : right - left <> 0) by lra.
  assert (Hdy : top - bottom <> 0) by lra.
  assert (Hdz : far - near <> 0) by lra.
  rewrite !(truediv_ok _ _ Hdx), !(truediv_ok _ _ Hdy), !(truediv_ok _ _ Hdz).
  reflexivity.
Qed.

(** X1.  [ortho] raises [ZeroDivisionError] exactly when [right = left],
    [top = bottom] or [far = near]; otherwise it returns the orthographic
    matrix. *)
Theorem ortho_result (left right bottom top near far : R) :
  (right <> left -> top <> bottom -> far <> near ->
   ortho left right bottom top near far
   = Ok (from_matrix
           [ [2 / (right - left); 0; 0; - (right + left) / (right - left)];
             [0; 2 / (top - bottom); 0; - (top + bottom) / (top - bottom)];
             [0; 0; -2 / (far - near); - (far + near) / (far - near)];
             [0; 0; 0; 1] ]))
  /\ (right = left \/ top = bottom \/ far = near ->
      ortho left right bottom top near far = Raise ZeroDivisionError).
Proof.
  split.
  - apply ortho_ok.
  - intros H. unfold ortho. cbv zeta.
    destruct (truediv_cases (- (right + left)) (right - left))
      as [[_ ->] | [Hdx ->]]; [reflexivity | rewrite result_bind_ok].
    destruct (truediv_cases (- (top + bottom)) (top - bottom))
      as [[_ ->] | [Hdy ->]]; [reflexivity | rewrite result_bind_ok].
    destruct (truediv_cases (- (far + near)) (far - near))
      as [[_ ->] | [Hdz ->]]; [reflexivity | ].
    exfalso. destruct H as [H | [H | H]]; lra.
Qed.

Lemma ortho_result_witness :
  ortho (-2) 2 (-1) 1 1 3
  = Ok (from_matrix
          [ [2 / (2 - -2); 0; 0; - (2 + -2) / (2 - -2)];
            [0; 2 / (1 - -1); 0; - (1 + -1) / (1 - -1)];
            [0; 0; -2 / (3 - 1); - (3 + 1) / (3 - 1)];
            [0; 0; 0; 1] ]).
Proof.
  apply (proj1 (ortho_result (-2) 2 (-1) 1 1 3)); lra.
Defined.

End projections.

(** ** More on the camera *)

Section camera_steps.
Open Scope R_scope.
Import PerspectiveCamera.

(** X5.  Starting from a positive distance, [zoom(steps)] keeps the distance
    positive exactly when [steps * zoom_delta < 1]; at
    [steps * zoom_delta = 1] the distance becomes 0. *)
Theorem zoom_keeps_distance_positive (steps : R) (c : t) :
  0 < distance c ->
  (0 < distance (zoom steps c) <-> steps * zoom_delta c < 1)
  /\ (steps * zoom_delta c = 1 -> distance (zoom steps c) = 0).
Proof.
  intros Hd.
  replace (distance (zoom steps c))
    with (distance c * (1 - steps * zoom_delta c))
    by (rewrite zoom_distance; ring).
  split.
  - split; intros H.
    + destruct (Rlt_or_le (steps * zoom_delta c) 1) as [Hlt | Hge];
        [exact Hlt | ].
      exfalso.
      assert (0 <= distance c * (steps * zoom_delta c - 1))
        by (apply Rmult_le_pos; lra).
      replace (distance c * (1 - steps * zoom_delta c))
        with (- (distance c * (steps * zoom_delta c - 1))) in H by ring.
      lra.
    + apply Rmult_lt_0_compat; lra.
  - intros ->. ring.
Qed.

Lemma zoom_keeps_distance_positive_witness :
  (0 < distance (zoom 19 create) <-> 19 * zoom_delta create < 1)
  /\ (19 * zoom_delta create = 1 -> distance (zoom 19 create) = 0).
Proof.
  apply (zoom_keeps_distance_positive 19 create). cbn. lra.
Defined.

(** X7.  A [pan] with no pointer movement leaves the camera as it is exactly
    when [target.x = -tx] and [target.y = -ty] hold already; otherwise it
    moves the target there. *)
Theorem pan_idle (mouse : Mouse.t) (c : t) :
  Mouse.dx mouse = 0 -> Mouse.dy mouse = 0 ->
  (pan mouse c = c <-> target_follows_offsets c)
  /\ tx (pan mouse c) = tx c /\ ty (pan mouse c) = ty c
  /\ distance (pan mouse c) = distance c
  /\ vz (target (pan mouse c)) = vz (target c).
Proof.
  intros Hx Hy.
  assert (Htx : tx (pan mouse c) = tx c).
  { unfold pan. cbn. rewrite Hx, Hy. ring. }
  assert (Hty : ty (pan mouse c) = ty c).
  { unfold pan. cbn. rewrite Hx, Hy. ring. }
  assert (Hd : distance (pan mouse c) = distance c).
  { unfold pan. cbn. rewrite Hy. ring. }
  assert (Hz : vz (target (pan mouse c)) = vz (target c)).
  { unfold pan. cbn. rewrite Hy. ring. }
  split; [ | repeat split; assumption].
  split.
  - intros E. pose proof (pan_establishes mouse c) as [Ix Iy].
    rewrite E in Ix, Iy. split; assumption.
  - intros [Ix Iy].
    assert (Hvx : vx (target (pan mouse c)) = vx (target c)).
    { change (- tx (pan mouse c) = vx (target c)). rewrite Htx, Ix. reflexivity. }
    assert (Hvy : vy (target (pan mouse c)) = vy (target c)).
    { change (- ty (pan mouse c) = vy (target c)). rewrite Hty, Iy. reflexivity. }
    assert (Ht : target (pan mouse c) = target c).
    { destruct (target (pan mouse c)), (target c). cbn in *. subst.
      reflexivity. }
    assert (Hrest :
      fov (pan mouse c) = fov c /\ near (pan mouse c) = near c
      /\ far (pan mouse c) = far c /\ rx (pan mouse c) = rx c
      /\ rz (pan mouse c) = rz c /\ tz (pan mouse c) = tz c
      /\ zoom_delta (pan mouse c) = zoom_delta c
      /\ rotation_delta (pan mouse c) = rotation_delta c
      /\ pan_delta (pan mouse c) = pan_delta c) by (repeat split).
    destruct Hrest as (H1 & H2 & H3 & H4 & H5 & H6 & H7 & H8 & H9).
    destruct (pan mouse c), c. cbn in *. subst. reflexivity.
Qed.

Lemma pan_idle_witness :
  (pan (Mouse.Build (4, 4)%Z (4, 4)%Z ∅) create = create
   <-> target_follows_offsets create)
  /\ tx (pan (Mouse.Build (4, 4)%Z (4, 4)%Z ∅) create) = tx create
  /\ ty (pan (Mouse.Build (4, 4)%Z (4, 4)%Z ∅) create) = ty create
  /\ distance (pan (Mouse.Build (4, 4)%Z (4, 4)%Z ∅) create) = distance create
  /\ vz (target (pan (Mouse.Build (4, 4)%Z (4, 4)%Z ∅) create))
     = vz (target create).
Proof.
  apply (pan_idle (Mouse.Build (4, 4)%Z (4, 4)%Z ∅) create); reflexivity.
Defined.

(** X8.  A horizontal drag, with a vertical pointer delta of 0, leaves the
    distance and [target.z] as they are; it moves [tx] by
    [pan_delta * (dx * cos(rz) * (distance / 10))] and [ty] by the negative
    of [pan_delta * (dx * sin(rz) * (distance / 10))]. *)
Theorem pan_horizontal_drag (mouse : Mouse.t) (c : t) :
  Mouse.dy mouse = 0 ->
  distance (pan mouse c) = distance c
  /\ vz (target (pan mouse c)) = vz (target c)
  /\ tx (pan mouse c)
     = tx c + pan_delta c
              * (Mouse.dx mouse * cos (radians (rz c)) * (distance c / 10))
  /\ ty (pan mouse c)
     = ty c - pan_delta c
              * (Mouse.dx mouse * sin (radians (rz c)) * (distance c / 10)).
Proof.
  intros Hy.
  split; [unfold pan; cbn; rewrite Hy; ring | ].
  split; [unfold pan; cbn; rewrite Hy; ring | ].
  split; unfold pan; cbn; rewrite Hy; ring.
Qed.

Lemma pan_horizontal_drag_witness :
  distance (pan (Mouse.Build (3, 0)%Z (1, 0)%Z ∅) create) = distance create.
Proof.
  apply (pan_horizontal_drag (Mouse.Build (3, 0)%Z (1, 0)%Z ∅) create).
  reflexivity.
Defined.

End camera_steps.

(** ** Event handlers of the view *)

Section view_events.
Open Scope R_scope.
Import PerspectiveCamera.

(** One handled move with the left button held. *)
Lemma left_move_step (p : Z * Z) (v : View.t) :
  let v' := View.mouseMoveEvent true (View.MkMouseEvent p true false) v in
  Mouse.last_pos (View.mouse v') = p
  /\ rx (View.camera v')
     = rx (View.camera v)
       + rotation_delta (View.camera v)
         * IZR (snd p - snd (Mouse.last_pos (View.mouse v)))
  /\ rz (View.camera v')
     = rz (View.camera v)
       + rotation_delta (View.camera v)
         * IZR (fst p - fst (Mouse.last_pos (View.mouse v)))
  /\ rotation_delta (View.camera v') = rotation_delta (View.camera v)
  /\ distance (View.camera v') = distance (View.camera v)
  /\ target (View.camera v') = target (View.camera v)
  /\ tx (View.camera v') = tx (View.camera v)
  /\ ty (View.camera v') = ty (View.camera v).
Proof. cbv zeta. repeat split. Qed.

Lemma left_moves (ps : list (Z * Z)) (v : View.t) :
  let v' := foldl (fun w p =>
                     View.mouseMoveEvent true (View.MkMouseEvent p true false) w)
                  v ps in
  let q := Mouse.last_pos (View.mouse v) in
  Mouse.last_pos (View.mouse v') = default q (last ps)
  /\ rx (View.camera v')
     = rx (View.camera v)
       + rotation_delta (View.camera v) * IZR (snd (default q (last ps)) - snd q)
  /\ rz (View.camera v')
     = rz (View.camera v)
       + rotation_delta (View.camera v) * IZR (fst (default q (last ps)) - fst q)
  /\ rotation_delta (View.camera v') = rotation_delta (View.camera v)
  /\ distance (View.camera v') = distance (View.camera v)
  /\ target (View.camera v') = target (View.camera v)
  /\ tx (View.camera v') = tx (View.camera v)
  /\ ty (View.camera v') = ty (View.camera v).
Proof.
  cbv zeta. revert v. induction ps as [ | p ps IH]; intros v.
  - cbn. rewrite !Z.sub_diag, !Rmult_0_r, !Rplus_0_r. repeat split.
  - cbn [foldl].
    destruct (left_move_step p v) as (Hl & Hx & Hz & Hk & Hd & Ht & Htx & Hty).
    destruct (IH (View.mouseMoveEvent true (View.MkMouseEvent p true false) v))
      as (Il & Ix & Iz & Ik & Id & It & Itx & Ity).
    rewrite Hl in Il, Ix, Iz. rewrite Hk in Ix, Iz, Ik.
    assert (Hlast : default (Mouse.last_pos (View.mouse v)) (last (p :: ps))
                    = default p (last ps)).
    { destruct ps as [ | p' ps']; [reflexivity | ].
      rewrite last_cons_cons. destruct (last (p' :: ps')) eqn:E;
        [reflexivity | ].
      apply last_None in E. discriminate. }
    rewrite Hlast.
    split; [exact Il | ].
    split; [rewrite Ix, Hx, !minus_IZR; ring | ].
    split; [rewrite Iz, Hz, !minus_IZR; ring | ].
    split; [exact Ik | ].
    split; [rewrite Id; exact Hd | ].
    split; [rewrite It; exact Ht | ].
    split; [rewrite Itx; exact Htx | rewrite Ity; exact Hty].
Qed.

(** X9.  A left drag that starts at [p0] and ends at [p] rotates by the
    total displacement [p - p0] whatever the path: [rz] grows by
    [rotation_delta] times the horizontal and [rx] by [rotation_delta] times
    the vertical displacement; distance, target and the pan offsets are not
    touched, and the tracker ends with [last_pos = p]. *)
Theorem left_drag_telescopes (p0 : Z * Z) (ps : list (Z * Z)) (v : View.t) :
  let v' := View.left_drag p0 ps v in
  let p := default p0 (last ps) in
  Mouse.last_pos (View.mouse v') = p
  /\ rx (View.camera v')
     = rx (View.camera v) + rotation_delta (View.camera v) * IZR (snd p - snd p0)
  /\ rz (View.camera v')
     = rz (View.camera v) + rotation_delta (View.camera v) * IZR (fst p - fst p0)
  /\ distance (View.camera v') = distance (View.camera v)
  /\ target (View.camera v') = target (View.camera v)
  /\ tx (View.camera v') = tx (View.camera v)
  /\ ty (View.camera v') = ty (View.camera v).
Proof.
  cbv zeta. unfold View.left_drag.
  destruct (left_moves ps
              (View.mousePressEvent true (View.MkMouseEvent p0 true false) v))
    as (Il & Ix & Iz & _ & Id & It & Itx & Ity).
  repeat split; assumption.
Qed.

(** X10.  A handled wheel event of one notch, a delta of 120 eighths of a
    degree, is [zoom(1)], and a notch the other way, a delta of -120, is
    [zoom(-1)]; size and pointer tracker are not touched.  An unfocused
    wheel event changes nothing. *)
Theorem wheel_notch (delta : Z) (v : View.t) :
  View.wheelEvent true 120 v = View.set_camera (zoom 1 (View.camera v)) v
  /\ View.wheelEvent true (-120) v
     = View.set_camera (zoom (-1) (View.camera v)) v
  /\ View.mouse (View.wheelEvent true delta v) = View.mouse v
  /\ View.width (View.wheelEvent true delta v) = View.width v
  /\ View.height (View.wheelEvent true delta v) = View.height v
  /\ View.wheelEvent false delta v = v.
Proof.
  split; [ | split; [ | repeat split]].
  - unfold View.wheelEvent, zoom. cbv zeta.
    replace (120 / 8 / 15) with 1 by field. reflexivity.
  - unfold View.wheelEvent, zoom. cbv zeta.
    replace (-120 / 8 / 15) with (-1) by field. reflexivity.
Qed.

(** X11.  [resizeGL] stores the new size before it computes the projection:
    with a width or a height of 0 it raises [ZeroDivisionError] and the view
    keeps the degenerate size; with a non-zero size and camera parameters
    in the domain it returns the perspective matrix of the new aspect
    ratio. *)
Theorem resizeGL_result (width height : Z) (v : View.t) :
  let v' := View.Build width height (View.camera v) (View.mouse v) in
  let c := View.camera v in
  (width = 0%Z \/ height = 0%Z ->
   View.resizeGL width height v = (Raise ZeroDivisionError, v'))
  /\ (width <> 0%Z -> height <> 0%Z ->
      0 < fov c < 180 -> near c <> far c ->
      View.resizeGL width height v
      = (Ok (standard_perspective (fov c) (IZR width / IZR height)
                                  (near c) (far c)), v')).
Proof.
  cbv zeta. unfold View.resizeGL, P. cbn [View.width View.height View.camera].
  split.
  - intros H. f_equal.
    destruct (Z.eq_dec height 0%Z) as [-> | Hh].
    + rewrite truediv_zero. reflexivity.
    + destruct H as [-> | H]; [ | contradiction].
      rewrite truediv_ok by (apply not_0_IZR; exact Hh).
      rewrite result_bind_ok. apply perspective_raises.
      right. left. unfold Rdiv. apply Rmult_0_l.
  - intros Hw Hh Hfov Hnf. f_equal.
    rewrite truediv_ok by (apply not_0_IZR; exact Hh).
    rewrite result_bind_ok. apply perspective_ok.
    + apply Rgt_not_eq, Rlt_gt, tan_half_fov_pos. exact Hfov.
    + unfold Rdiv. apply Rmult_integral_contrapositive_currified.
      * apply not_0_IZR. exact Hw.
      * apply Rinv_neq_0_compat, not_0_IZR. exact Hh.
    + exact Hnf.
Qed.

Lemma resizeGL_result_witness :
  View.resizeGL 640 0 View.__init__
  = (Raise ZeroDivisionError,
     View.Build 640 0 (View.camera View.__init__) (View.mouse View.__init__)).
Proof.
  apply (proj1 (resizeGL_result 640 0 View.__init__)). right. reflexivity.
Defined.

End view_events.

(** ** Buffers *)

Section buffers.

Lemma insert_fresh_subseteq {A} (m : gmap nat A) (x : A) :
  m ⊆ <[fresh_name m := x]> m.
Proof. apply insert_subseteq. apply fresh_name_fresh. Qed.

Lemma make_vertex_buffer_run (data : list R) (s : GLState) :
  make_vertex_buffer data s
  = (Ok (fresh_name (buffers s)), buffer_added data s).
Proof. apply make_vertex_buffer_spec. Qed.

Lemma upload_run (verts cols : list R) (s : GLState) :
  upload verts cols s
  = (Ok (MkPass (fresh_name (buffers s))
                (fresh_name (buffers (buffer_added verts s)))),
     buffer_added cols (buffer_added verts s)).
Proof.
  unfold upload.
  erewrite st_bind_ok by apply make_vertex_buffer_run.
  erewrite st_bind_ok by apply make_vertex_buffer_run.
  reflexivity.
Qed.

Lemma flatten_length (l : list vec) : length (flatten l) = 3 * length l.
Proof.
  unfold flatten. induction l as [ | v l IH]; [reflexivity | ].
  cbn [map concat]. rewrite length_app, IH. cbn. lia.
Qed.

(** X12.  [make_vertex_buffer] creates exactly one buffer: its name is not 0
    and was not in use, it holds the data and is left bound; every other
    buffer and all vertex arrays are as before. *)
Theorem make_vertex_buffer_allocates (data : list R) (s : GLState) :
  exists n s',
    make_vertex_buffer data s = (Ok n, s')
    /\ n <> 0
    /\ buffers s !! n = None
    /\ buffers s' !! n = Some data
    /\ (forall k, k <> n -> buffers s' !! k = buffers s !! k)
    /\ size (buffers s') = S (size (buffers s))
    /\ array_buffer_binding s' = n
    /\ vertex_arrays s' = vertex_arrays s
    /\ vertex_array_binding s' = vertex_array_binding s.
Proof.
  exists (fresh_name (buffers s)), (buffer_added data s).
  destruct (fresh_name_fresh (buffers s)) as [Hnone Hnz].
  split; [apply make_vertex_buffer_run | ].
  split; [exact Hnz | ]. split; [exact Hnone | ].
  unfold buffer_added. cbn.
  split; [apply lookup_insert_eq | ].
  split; [intros k Hk; apply lookup_insert_ne; congruence | ].
  split; [apply size_insert_fresh | ].
  repeat split.
Qed.

End buffers.

Lemma make_vertex_buffer_allocates_witness :
  exists n s',
    make_vertex_buffer [1%R; 2%R; 3%R] gl_empty = (Ok n, s')
    /\ n <> 0
    /\ buffers gl_empty !! n = None
    /\ buffers s' !! n = Some [1%R; 2%R; 3%R]
    /\ (forall k, k <> n -> buffers s' !! k = buffers gl_empty !! k)
    /\ size (buffers s') = S (size (buffers gl_empty))
    /\ array_buffer_binding s' = n
    /\ vertex_arrays s' = vertex_arrays gl_empty
    /\ vertex_array_binding s' = vertex_array_binding gl_empty.
Proof.
  exact (make_vertex_buffer_allocates [1%R; 2%R; 3%R] gl_empty).
Defined.

(** ** Dictionaries of coordinates *)

Section coordinates.

Lemma foldl_insert_lookup_None {A} (f : nat -> A) (l : list nat)
    (d0 : gmap nat A) (k : nat) :
  k ∉ l -> foldl (fun d x => <[x := f x]> d) d0 l !! k = d0 !! k.
Proof.
  revert d0. induction l as [ | x l IH]; intros d0 H; [reflexivity | ].
  cbn. rewrite IH.
  - apply lookup_insert_ne. intros ->. apply H. left.
  - intros Hk. apply H. right. exact Hk.
Qed.

Lemma comprehension_lookup_cases {A} (f : nat -> A) (l : list nat) (k : nat) :
  foldl (fun d x => <[x := f x]> d) (∅ : gmap nat A) l !! k
  = if decide (k ∈ l) then Some (f k) else None.
Proof.
  destruct (decide (k ∈ l)) as [Hin | Hnin].
  - apply comprehension_lookup. exact Hin.
  - rewrite foldl_insert_lookup_None by exact Hnin. apply lookup_empty.
Qed.

(** X13.  [node_xyz] of a network object is the dictionary that maps
    exactly the nodes of the network to their coordinates: a node is looked
    up successfully, any other key raises [KeyError]. *)
Theorem node_xyz_lookup (self : NetworkObject.t) (n : Network.t) :
  NetworkObject._data self = Geo_Network n ->
  exists d,
    NetworkObject.node_xyz self = Ok d
    /\ (forall k, k ∈ Network.nodes n ->
                  getitem d k = Ok (Network.node_attributes n k))
    /\ (forall k, k ∉ Network.nodes n -> getitem d k = Raise KeyError).
Proof.
  intros Hdata. eexists. split; [apply node_xyz_ok; exact Hdata | ].
  split; intros k Hk; unfold getitem; rewrite comprehension_lookup_cases.
  - rewrite decide_True by exact Hk. reflexivity.
  - rewrite decide_False by exact Hk. reflexivity.
Qed.

Lemma node_xyz_lookup_witness :
  exists d,
    NetworkObject.node_xyz (Samples.network_object Samples.path_network) = Ok d
    /\ (forall k, k ∈ Network.nodes Samples.path_network ->
                  getitem d k = Ok (Samples.coordinate k))
    /\ (forall k, k ∉ Network.nodes Samples.path_network ->
                  getitem d k = Raise KeyError).
Proof.
  exact (node_xyz_lookup (Samples.network_object Samples.path_network)
                         Samples.path_network eq_refl).
Defined.

(** X14.  [vertex_xyz] of a mesh object maps exactly the vertices of the
    mesh to their coordinates. *)
Theorem vertex_xyz_lookup (self : MeshObject.t) (m : Mesh.t) :
  MeshObject._mesh self = Geo_Mesh m ->
  exists d,
    MeshObject.vertex_xyz self = Ok d
    /\ (forall k, k ∈ Mesh.vertices m ->
                  getitem d k = Ok (Mesh.vertex_attributes m k))
    /\ (forall k, k ∉ Mesh.vertices m -> getitem d k = Raise KeyError).
Proof.
  intros Hmesh. eexists. split; [apply vertex_xyz_ok; exact Hmesh | ].
  split; intros k Hk; unfold getitem; rewrite comprehension_lookup_cases.
  - rewrite decide_True by exact Hk. reflexivity.
  - rewrite decide_False by exact Hk. reflexivity.
Qed.

Lemma vertex_xyz_lookup_witness :
  exists d,
    MeshObject.vertex_xyz (Samples.mesh_object Samples.quad) = Ok d
    /\ (forall k, k ∈ Mesh.vertices Samples.quad ->
                  getitem d k = Ok (Samples.coordinate k))
    /\ (forall k, k ∉ Mesh.vertices Samples.quad -> getitem d k = Raise KeyError).
Proof.
  exact (vertex_xyz_lookup (Samples.mesh_object Samples.quad)
                           Samples.quad eq_refl).
Defined.

End coordinates.

(** ** More on the network passes *)

Section network_passes.
Import NetworkObject.

Context (self : NetworkObject.t) (n : Network.t).
Hypothesis Hdata : _data self = Geo_Network n.

Lemma nodes_pass_eq (s : GLState) :
  nodes self s
  = upload (flatten (map (Network.node_attributes n) (Network.nodes n)))
           (flatten (replicate (length (Network.nodes n)) default_color_nodes))
           s.
Proof.
  unfold nodes. rewrite (node_xyz_ok self n Hdata), Hdata. cbn [as_network].
  erewrite st_bind_ok by reflexivity.
  erewrite st_bind_ok by reflexivity.
  rewrite (for_each_points _ (Network.node_attributes n))
    by (intros x Hx; apply comprehension_lookup; exact Hx).
  erewrite st_bind_ok by reflexivity.
  reflexivity.
Qed.

Lemma edges_pass_eq (s : GLState) :
  Network.wf n ->
  edges self s
  = upload (flatten (edge_positions (Network.node_attributes n) (Network.edges n)))
           (flatten (replicate (2 * length (Network.edges n)) default_color_edges))
           s.
Proof.
  intros Hwf.
  unfold edges. rewrite (node_xyz_ok self n Hdata), Hdata. cbn [as_network].
  erewrite st_bind_ok by reflexivity.
  erewrite st_bind_ok by reflexivity.
  rewrite (for_each_lines _ (Network.node_attributes n)).
  2:{ intros u w Huw. destruct (Hwf u w Huw) as [Hu Hw].
      split; apply comprehension_lookup; assumption. }
  erewrite st_bind_ok by reflexivity.
  reflexivity.
Qed.

End network_passes.

Section upload_facts.

Lemma upload_facts (verts cols : list R) (s : GLState) :
  exists v c s',
    upload verts cols s = (Ok (MkPass v c), s')
    /\ buffers s' !! v = Some verts
    /\ buffers s' !! c = Some cols
    /\ v <> c
    /\ size (buffers s') = 2 + size (buffers s)
    /\ buffers s ⊆ buffers s'
    /\ vertex_arrays s' = vertex_arrays s
    /\ vertex_array_binding s' = vertex_array_binding s.
Proof.
  exists (fresh_name (buffers s)),
         (fresh_name (buffers (buffer_added verts s))),
         (buffer_added cols (buffer_added verts s)).
  split; [apply upload_run | ].
  set (v := fresh_name (buffers s)).
  set (B1 := buffers (buffer_added verts s)).
  set (c := fresh_name B1).
  assert (HB1 : B1 = <[v := verts]> (buffers s)) by reflexivity.
  assert (Hc : B1 !! c = None) by apply fresh_name_fresh.
  assert (Hne : v <> c).
  { intros E. rewrite <- E, HB1, lookup_insert_eq in Hc. discriminate. }
  change (buffers (buffer_added cols (buffer_added verts s)))
    with (<[c := cols]> B1).
  split; [rewrite lookup_insert_ne by congruence; rewrite HB1;
          apply lookup_insert_eq | ].
  split; [apply lookup_insert_eq | ].
  split; [exact Hne | ].
  split.
  { unfold c. rewrite size_insert_fresh, HB1. unfold v.
    rewrite size_insert_fresh. reflexivity. }
  split.
  { transitivity B1; [rewrite HB1; apply insert_fresh_subseteq | ].
    apply insert_fresh_subseteq. }
  split; reflexivity.
Qed.

End upload_facts.

(** X15.  For every network whose edges connect its nodes, the node pass
    uploads [3 * nodeCount] numbers and the edge pass [6 * edgeCount]; in
    both passes the color buffer has the length of the position buffer,
    the two buffers are distinct and new, and no vertex array is touched.
    An empty network gives empty buffers. *)
Theorem network_pass_lengths (self : NetworkObject.t) (n : Network.t) (s : GLState) :
  NetworkObject._data self = Geo_Network n ->
  Network.wf n ->
  (exists v c s' pv pc,
      NetworkObject.nodes self s = (Ok (MkPass v c), s')
      /\ buffers s' !! v = Some pv /\ buffers s' !! c = Some pc
      /\ length pv = 3 * length (Network.nodes n)
      /\ length pc = length pv
      /\ v <> c
      /\ size (buffers s') = 2 + size (buffers s)
      /\ vertex_arrays s' = vertex_arrays s)
  /\ (exists v c s' pv pc,
         NetworkObject.edges self s = (Ok (MkPass v c), s')
         /\ buffers s' !! v = Some pv /\ buffers s' !! c = Some pc
         /\ length pv = 6 * length (Network.edges n)
         /\ length pc = length pv
         /\ v <> c
         /\ size (buffers s') = 2 + size (buffers s)
         /\ vertex_arrays s' = vertex_arrays s).
Proof.
  intros Hdata Hwf. split.
  - rewrite (nodes_pass_eq self n Hdata).
    destruct (upload_facts
                (flatten (map (Network.node_attributes n) (Network.nodes n)))
                (flatten (replicate (length (Network.nodes n))
                                    NetworkObject.default_color_nodes)) s)
      as (v & c & s' & Hrun & Hv & Hc & Hne & Hsize & _ & Hva & _).
    exists v, c, s'. eexists. eexists.
    split; [exact Hrun | ]. split; [exact Hv | ]. split; [exact Hc | ].
    split; [rewrite flatten_length, length_map; reflexivity | ].
    split; [rewrite !flatten_length, length_map, length_replicate; reflexivity | ].
    repeat split; assumption.
  - rewrite (edges_pass_eq self n Hdata s Hwf).
    destruct (upload_facts
                (flatten (edge_positions (Network.node_attributes n)
                                         (Network.edges n)))
                (flatten (replicate (2 * length (Network.edges n))
                                    NetworkObject.default_color_edges)) s)
      as (v & c & s' & Hrun & Hv & Hc & Hne & Hsize & _ & Hva & _).
    exists v, c, s'. eexists. eexists.
    split; [exact Hrun | ]. split; [exact Hv | ]. split; [exact Hc | ].
    split; [rewrite flatten_length, edge_positions_length; lia | ].
    split; [rewrite !flatten_length, edge_positions_length, length_replicate;
            reflexivity | ].
    repeat split; assumption.
Qed.

Lemma network_pass_lengths_witness :
  exists v c s' pv pc,
    NetworkObject.nodes (Samples.network_object Samples.path_network) gl_empty
    = (Ok (MkPass v c), s')
    /\ buffers s' !! v = Some pv /\ buffers s' !! c = Some pc
    /\ length pv = 3 * 4
    /\ length pc = length pv
    /\ v <> c
    /\ size (buffers s') = 2 + size (buffers gl_empty)
    /\ vertex_arrays s' = vertex_arrays gl_empty.
Proof.
  exact (proj1 (network_pass_lengths
                  (Samples.network_object Samples.path_network)
                  Samples.path_network gl_empty eq_refl path_network_wf)).
Defined.

(** ** Missing keys *)

Section missing_keys.

Context (d : gmap nat vec) (xyz : nat -> vec) (color : vec) (L : list nat).
Hypothesis Hd : forall k, d !! k = if decide (k ∈ L) then Some (xyz k) else None.

Lemma getitem_cases (k : nat) :
  (k ∈ L /\ getitem d k = Ok (xyz k))
  \/ ((k ∉ L) /\ getitem d k = Raise KeyError).
Proof.
  unfold getitem. rewrite Hd. destruct (decide (k ∈ L)) as [H | H].
  - left. split; [exact H | reflexivity].
  - right. split; [exact H | reflexivity].
Qed.

(** An edge with an endpoint that is not a key stops the edge loop with
    [KeyError]. *)
Lemma for_each_lines_missing (l : list (nat * nat)) (acc : list vec * list vec) :
  (exists u v, (u, v) ∈ l /\ (u ∉ L \/ v ∉ L)) ->
  for_each
    (fun '(u, v) '(edges, colors) =>
       pu ← getitem d u ;
       pv ← getitem d v ;
       Ok (edges ++ [pu] ++ [pv], colors ++ [color] ++ [color]))
    l acc
  = Raise KeyError.
Proof.
  revert acc. induction l as [ | [u v] l IH]; intros [accv accc] (a & b & Hin & Hbad).
  - inversion Hin.
  - cbn [for_each]. cbv beta iota.
    destruct (getitem_cases u) as [[Hu ->] | [Hu ->]]; [ | reflexivity].
    rewrite result_bind_ok.
    destruct (getitem_cases v) as [[Hv ->] | [Hv ->]]; [ | reflexivity].
    rewrite result_bind_ok.
    apply IH. exists a, b. split; [ | exact Hbad].
    apply elem_of_cons in Hin. destruct Hin as [E | Hin]; [ | exact Hin].
    injection E as -> ->. destruct Hbad; contradiction.
Qed.

End missing_keys.

(** X16.  When some edge of the network has an endpoint that is not a node,
    the edge pass raises [KeyError] and creates no buffer. *)
Theorem network_edges_missing_node (self : NetworkObject.t) (n : Network.t)
    (s : GLState) :
  NetworkObject._data self = Geo_Network n ->
  (exists u v, (u, v) ∈ Network.edges n
               /\ (u ∉ Network.nodes n \/ v ∉ Network.nodes n)) ->
  NetworkObject.edges self s = (Raise KeyError, s).
Proof.
  intros Hdata Hbad. unfold NetworkObject.edges.
  rewrite (node_xyz_ok self n Hdata), Hdata. cbn [as_network].
  erewrite st_bind_ok by reflexivity.
  erewrite st_bind_ok by reflexivity.
  rewrite (for_each_lines_missing _ (Network.node_attributes n) _
             (Network.nodes n)).
  - apply st_bind_raise. reflexivity.
  - intros k. apply comprehension_lookup_cases.
  - exact Hbad.
Qed.

Lemma network_edges_missing_node_witness :
  NetworkObject.edges (Samples.network_object Samples.dangling_network) gl_empty
  = (Raise KeyError, gl_empty).
Proof.
  apply (network_edges_missing_node
           (Samples.network_object Samples.dangling_network)
           Samples.dangling_network gl_empty eq_refl).
  exists 1, 5. split.
  - right. left.
  - right. intros H. cbn in H.
    apply elem_of_cons in H. destruct H as [H | H]; [discriminate | ].
    apply elem_of_cons in H. destruct H as [H | H]; [discriminate | ].
    inversion H.
Defined.

(** ** More on the mesh passes *)

Section mesh_passes.
Import MeshObject.

Lemma upload_pass_uploads (pass : st GLState pass_buffers) (verts cols : list R)
    (s : GLState) :
  pass s = upload verts cols s -> pass_uploads pass s verts cols.
Proof.
  intros H. unfold pass_uploads. rewrite H.
  destruct (upload_facts verts cols s)
    as (v & c & s' & Hrun & Hv & Hc & Hne & Hsize & Hsub & Hva & _).
  exists v, c, s'. repeat split; assumption.
Qed.

Context (self : MeshObject.t) (m : Mesh.t).
Hypothesis Hmesh : _mesh self = Geo_Mesh m.

Lemma vertices_pass_eq (s : GLState) :
  vertices self s
  = upload (flatten (map (Mesh.vertex_attributes m) (Mesh.vertices m)))
           (flatten (replicate (length (Mesh.vertices m))
                               (default_color_vertices (cls self))))
           s.
Proof.
  unfold vertices. rewrite (vertex_xyz_ok self m Hmesh), Hmesh. cbn [as_mesh].
  erewrite st_bind_ok by reflexivity.
  erewrite st_bind_ok by reflexivity.
  rewrite (for_each_points _ (Mesh.vertex_attributes m))
    by (intros x Hx; apply comprehension_lookup; exact Hx).
  erewrite st_bind_ok by reflexivity.
  reflexivity.
Qed.

Lemma mesh_edges_pass_eq (s : GLState) :
  mesh_edges_wf m ->
  edges self s
  = upload (flatten (edge_positions (Mesh.vertex_attributes m) (Mesh.edges m)))
           (flatten (replicate (2 * length (Mesh.edges m))
                               (default_color_edges (cls self))))
           s.
Proof.
  intros Hwf.
  unfold edges. rewrite (vertex_xyz_ok self m Hmesh), Hmesh. cbn [as_mesh].
  erewrite st_bind_ok by reflexivity.
  erewrite st_bind_ok by reflexivity.
  rewrite (for_each_lines _ (Mesh.vertex_attributes m)).
  2:{ intros u w Huw. destruct (Hwf u w Huw) as [Hu Hw].
      split; apply comprehension_lookup; assumption. }
  erewrite st_bind_ok by reflexivity.
  reflexivity.
Qed.

Lemma front_pass_eq (s : GLState) (faces colors : list vec) :
  front_faces self = Ok (faces, colors) ->
  front self s = upload (flatten faces) (flatten colors) s.
Proof.
  intros H. unfold front. rewrite H.
  erewrite st_bind_ok by reflexivity. reflexivity.
Qed.

Lemma back_pass_eq (s : GLState) (faces colors : list vec) :
  back_faces self = Ok (faces, colors) ->
  back self s = upload (flatten faces) (flatten colors) s.
Proof.
  intros H. unfold back. rewrite H.
  erewrite st_bind_ok by reflexivity. reflexivity.
Qed.

Lemma back_faces_raises :
  Mesh.wf m ->
  (exists f, f ∈ Mesh.faces m /\ ~ supported_face (Mesh.face_vertices m f)) ->
  back_faces self = Raise NotImplementedError.
Proof.
  intros Hwf (f & Hf & Hbad). unfold back_faces.
  rewrite (vertex_xyz_ok self m Hmesh), Hmesh. cbn [as_mesh].
  rewrite !result_bind_ok. cbv zeta.
  etransitivity.
  - apply (for_each_faces_unsupported _ (Mesh.vertex_attributes m) _
             (fun f => reverse (Mesh.face_vertices m f))).
    + exists f. split; [exact Hf | ].
      unfold supported_face. rewrite length_reverse. exact Hbad.
    + intros g v Hg Hv. apply (proj1 (elem_of_reverse v _)) in Hv.
      apply (wf_lookup m g v Hwf Hg Hv).
  - reflexivity.
Qed.

End mesh_passes.

(** X17.  For a mesh whose faces are triangles or quadrilaterals on its own
    vertices and whose edges connect its vertices, the four passes succeed:
    the vertex pass uploads [3 * vertexCount] numbers, the edge pass
    [6 * edgeCount], the front and the back pass [9 * triangleCount] each,
    and in every pass the color buffer has the length of the position
    buffer. *)
Theorem mesh_pass_lengths (self : MeshObject.t) (m : Mesh.t) (s : GLState) :
  MeshObject._mesh self = Geo_Mesh m ->
  Mesh.wf m -> mesh_edges_wf m ->
  (forall f, f ∈ Mesh.faces m -> supported_face (Mesh.face_vertices m f)) ->
  (exists pv pc, pass_uploads (MeshObject.vertices self) s pv pc
                 /\ length pv = 3 * length (Mesh.vertices m)
                 /\ length pc = length pv)
  /\ (exists pv pc, pass_uploads (MeshObject.edges self) s pv pc
                    /\ length pv = 6 * length (Mesh.edges m)
                    /\ length pc = length pv)
  /\ (exists pv pc, pass_uploads (MeshObject.front self) s pv pc
                    /\ length pv = 9 * length (mesh_triangles m)
                    /\ length pc = length pv)
  /\ (exists pv pc, pass_uploads (MeshObject.back self) s pv pc
                    /\ length pv = 9 * length (mesh_triangles m)
                    /\ length pc = length pv).
Proof.
  intros Hmesh Hwf Hewf Hs.
  split; [ | split; [ | split]].
  - eexists. eexists. split.
    + apply upload_pass_uploads. apply (vertices_pass_eq self m Hmesh).
    + rewrite !flatten_length, length_map, length_replicate. split; reflexivity.
  - eexists. eexists. split.
    + apply upload_pass_uploads. apply (mesh_edges_pass_eq self m Hmesh s Hewf).
    + rewrite !flatten_length, edge_positions_length, length_replicate.
      split; [lia | reflexivity].
  - eexists. eexists. split.
    + apply upload_pass_uploads. apply front_pass_eq.
      apply (front_faces_ok self m Hmesh Hwf Hs).
    + rewrite !flatten_length, triangle_positions_length, length_replicate.
      split; [lia | reflexivity].
  - eexists. eexists. split.
    + apply upload_pass_uploads. apply back_pass_eq.
      apply (back_faces_ok self m Hmesh Hwf Hs).
    + rewrite !flatten_length, triangle_positions_length, length_replicate.
      rewrite (face_triangles_reverse_length (Mesh.face_vertices m)
                 (Mesh.faces m) Hs : length (mesh_triangles (Mesh.flip_cycles m))
                                     = length (mesh_triangles m)).
      split; [lia | reflexivity].
Qed.

Lemma quad_wf : Mesh.wf Samples.quad.
Proof. intros f v _ Hv. exact Hv. Qed.

Lemma quad_edges_wf : mesh_edges_wf Samples.quad.
Proof.
  intros u v H. cbn in H.
  repeat (apply elem_of_cons in H; destruct H as [H | H];
          [inversion H; subst; split; cbn; set_solver | ]).
  inversion H.
Qed.

Lemma quad_supported :
  forall f, f ∈ Mesh.faces Samples.quad ->
            supported_face (Mesh.face_vertices Samples.quad f).
Proof. intros f _. right. reflexivity. Qed.

Lemma mesh_pass_lengths_witness :
  exists pv pc,
    pass_uploads (MeshObject.front (Samples.mesh_object Samples.quad))
                 gl_empty pv pc
    /\ length pv = 9 * 2
    /\ length pc = length pv.
Proof.
  exact (proj1 (proj2 (proj2 (mesh_pass_lengths
                                (Samples.mesh_object Samples.quad)
                                Samples.quad gl_empty eq_refl
                                quad_wf quad_edges_wf quad_supported)))).
Defined.

Lemma face_triangles_reverse_triangles (fv : nat -> list nat) (l : list nat) :
  (forall f, f ∈ l -> length (fv f) = 3) ->
  face_triangles (fun f => reverse (fv f)) l
  = map reverse_winding (face_triangles fv l).
Proof.
  unfold face_triangles.
  induction l as [ | f l IH]; intros H3; [reflexivity | ].
  cbn [map concat]. rewrite map_app.
  rewrite IH by (intros g Hg; apply H3; right; exact Hg).
  f_equal.
  assert (Hf : length (fv f) = 3) by (apply H3; left).
  destruct (fv f) as [ | a [ | b [ | c [ | e r]]]]; try discriminate.
  reflexivity.
Qed.

(** X18.  For a mesh of triangles the back pass uploads, face after face,
    the triangles of the front pass with their winding reversed:
    [(c, b, a)] for the front triangle [(a, b, c)]. *)
Theorem back_reverses_triangles (self : MeshObject.t) (m : Mesh.t) (s : GLState) :
  MeshObject._mesh self = Geo_Mesh m ->
  Mesh.wf m ->
  (forall f, f ∈ Mesh.faces m -> length (Mesh.face_vertices m f) = 3) ->
  let xyz := Mesh.vertex_attributes m in
  (exists colors,
      pass_uploads (MeshObject.front self) s
        (flatten (triangle_positions xyz (mesh_triangles m))) colors)
  /\ (exists colors,
         pass_uploads (MeshObject.back self) s
           (flatten (triangle_positions xyz
                       (map reverse_winding (mesh_triangles m)))) colors).
Proof.
  intros Hmesh Hwf H3 xyz.
  assert (Hs : forall f, f ∈ Mesh.faces m ->
                         supported_face (Mesh.face_vertices m f))
    by (intros f Hf; left; apply H3; exact Hf).
  split.
  - eexists. apply upload_pass_uploads. apply front_pass_eq.
    apply (front_faces_ok self m Hmesh Hwf Hs).
  - eexists. apply upload_pass_uploads. apply back_pass_eq.
    rewrite (back_faces_ok self m Hmesh Hwf Hs).
    change (mesh_triangles (Mesh.flip_cycles m))
      with (face_triangles (fun f => reverse (Mesh.face_vertices m f))
                           (Mesh.faces m)).
    rewrite (face_triangles_reverse_triangles _ _ H3). reflexivity.
Qed.

Lemma triangle_mesh_wf : Mesh.wf Samples.triangle_mesh.
Proof. intros f v _ Hv. exact Hv. Qed.

Lemma back_reverses_triangles_witness :
  exists colors,
    pass_uploads (MeshObject.back (Samples.mesh_object Samples.triangle_mesh))
      gl_empty
      (flatten (triangle_positions Samples.coordinate [(2, 1, 0)])) colors.
Proof.
  refine (proj2 (back_reverses_triangles
                   (Samples.mesh_object Samples.triangle_mesh)
                   Samples.triangle_mesh gl_empty eq_refl
                   triangle_mesh_wf _)).
  intros f _. reflexivity.
Defined.

(** X19.  A mesh with a face of neither three nor four vertices makes the
    back pass raise [NotImplementedError] without creating a buffer, while
    its vertex pass still succeeds. *)
Theorem back_unsupported_face (self : MeshObject.t) (m : Mesh.t) (s : GLState) :
  MeshObject._mesh self = Geo_Mesh m ->
  Mesh.wf m ->
  (exists f, f ∈ Mesh.faces m /\ ~ supported_face (Mesh.face_vertices m f)) ->
  MeshObject.back self s = (Raise NotImplementedError, s)
  /\ exists pv pc, pass_uploads (MeshObject.vertices self) s pv pc
                   /\ length pv = 3 * length (Mesh.vertices m).
Proof.
  intros Hmesh Hwf Hbad. split.
  - unfold MeshObject.back. rewrite (back_faces_raises self m Hmesh Hwf Hbad).
    apply st_bind_raise. reflexivity.
  - eexists. eexists. split.
    + apply upload_pass_uploads. apply (vertices_pass_eq self m Hmesh).
    + rewrite flatten_length, length_map. reflexivity.
Qed.

Lemma back_unsupported_face_witness :
  MeshObject.back (Samples.mesh_object Samples.pentagon) gl_empty
  = (Raise NotImplementedError, gl_empty).
Proof.
  exact (proj1 (back_unsupported_face
                  (Samples.mesh_object Samples.pentagon) Samples.pentagon
                  gl_empty eq_refl pentagon_wf pentagon_unsupported)).
Defined.

(** ** Successful initialisation *)

Section attach_pass.

Context (vao : nat) (pass : st GLState pass_buffers) (verts cols : list R).
Hypothesis Hpass : forall s0, pass s0 = upload verts cols s0.

Lemma attach_upload (s : GLState) (V : VAO) :
  vertex_arrays s !! vao = Some V ->
  exists s',
    attach vao pass s = (Ok tt, s')
    /\ vao_reads s' vao verts cols
    /\ (forall k, k <> vao -> vertex_arrays s' !! k = vertex_arrays s !! k)
    /\ dom (vertex_arrays s') = dom (vertex_arrays s)
    /\ buffers s ⊆ buffers s'
    /\ size (buffers s') = 4 + size (buffers s)
    /\ vertex_array_binding s' = vao
    /\ point_size s' = point_size s.
Proof.
  intros HV.
  destruct s as [va B0 vab abb ps]. cbn [vertex_arrays] in HV.
  set (b1 := fresh_name B0).
  set (B1 := <[b1 := verts]> B0).
  set (b2 := fresh_name B1).
  set (B2 := <[b2 := cols]> B1).
  set (b3 := fresh_name B2).
  set (B3 := <[b3 := verts]> B2).
  set (b4 := fresh_name B3).
  set (B4 := <[b4 := cols]> B3).
  set (va2 := alter (fun v => MkVAO ({[0]} ∪ enabled v) (pointers v)) vao va).
  set (va6 := alter (fun v => MkVAO (enabled v) (<[0 := b1]> (pointers v)))
                    vao va2).
  set (va7 := alter (fun v => MkVAO ({[1]} ∪ enabled v) (pointers v)) vao va6).
  set (va11 := alter (fun v => MkVAO (enabled v) (<[1 := b4]> (pointers v)))
                     vao va7).
  exists (MkGL va11 B4 vao b4 ps). split.
  { unfold attach.
    rewrite (st_bind_ok _ _ _ (MkGL va B0 vao abb ps) tt) by reflexivity.
    rewrite (st_bind_ok _ _ _ (MkGL va2 B0 vao abb ps) tt) by reflexivity.
    rewrite (st_bind_ok _ _ _ (MkGL va2 B2 vao b2 ps) (MkPass b1 b2))
      by (rewrite Hpass, upload_run; reflexivity).
    rewrite (st_bind_ok _ _ _ (MkGL va2 B2 vao b1 ps) tt) by reflexivity.
    rewrite (st_bind_ok _ _ _ (MkGL va6 B2 vao b1 ps) tt) by reflexivity.
    rewrite (st_bind_ok _ _ _ (MkGL va7 B2 vao b1 ps) tt) by reflexivity.
    rewrite (st_bind_ok _ _ _ (MkGL va7 B4 vao b4 ps) (MkPass b3 b4))
      by (rewrite Hpass, upload_run; reflexivity).
    rewrite (st_bind_ok _ _ _ (MkGL va7 B4 vao b4 ps) tt) by reflexivity.
    reflexivity. }
  cbn [vertex_arrays buffers vertex_array_binding point_size].
  assert (S01 : B0 ⊆ B1) by apply insert_fresh_subseteq.
  assert (S12 : B1 ⊆ B2) by apply insert_fresh_subseteq.
  assert (S23 : B2 ⊆ B3) by apply insert_fresh_subseteq.
  assert (S34 : B3 ⊆ B4) by apply insert_fresh_subseteq.
  assert (L1 : B4 !! b1 = Some verts).
  { apply (lookup_weaken B1); [apply lookup_insert_eq | ].
    transitivity B2; [exact S12 | ]. transitivity B3; assumption. }
  assert (L4 : B4 !! b4 = Some cols) by apply lookup_insert_eq.
  split.
  { unfold vao_reads. cbn [vertex_arrays buffers].
    eexists. exists b1, b4.
    split.
    { unfold va11, va7, va6, va2. rewrite !lookup_alter_eq, HV. cbn.
      reflexivity. }
    cbn [enabled pointers].
    split; [apply elem_of_union_r, elem_of_union_l, elem_of_singleton;
            reflexivity | ].
    split; [apply elem_of_union_l, elem_of_singleton; reflexivity | ].
    split; [rewrite lookup_insert_ne by discriminate; apply lookup_insert_eq | ].
    split; [apply lookup_insert_eq | ].
    split; assumption. }
  split.
  { intros k Hk. unfold va11, va7, va6, va2.
    rewrite !lookup_alter_ne by congruence. reflexivity. }
  split; [unfold va11, va7, va6, va2; rewrite !dom_alter_L; reflexivity | ].
  split.
  { transitivity B1; [exact S01 | ]. transitivity B2; [exact S12 | ].
    transitivity B3; assumption. }
  split.
  { unfold B4, b4, B3, b3, B2, b2, B1, b1.
    rewrite !size_insert_fresh. reflexivity. }
  split; reflexivity.
Qed.

End attach_pass.

Lemma vao_reads_preserved (s s' : GLState) (vao : nat) (positions colors : list R) :
  vao_reads s vao positions colors ->
  vertex_arrays s' !! vao = vertex_arrays s !! vao ->
  buffers s ⊆ buffers s' ->
  vao_reads s' vao positions colors.
Proof.
  intros (V & bp & bc & HV & H0 & H1 & Hp & Hc & Hbp & Hbc) Hva Hsub.
  exists V, bp, bc. rewrite Hva.
  repeat split; try assumption.
  - apply (lookup_weaken (buffers s)); assumption.
  - apply (lookup_weaken (buffers s)); assumption.
Qed.

(** X20.  [NetworkObject.init] on a network whose edges connect its nodes
    succeeds.  It creates two vertex arrays, stored in [_vao]: the one for
    the edges reads the edge positions at location 0 and the edge colors at
    location 1, the one for the nodes the node positions and colors.  Every
    pass is evaluated twice, once per location, so eight buffers are created
    where four are read.  No vertex array is left bound and the point size
    is 10; buffers that existed are kept. *)
Theorem network_init_ok (self : NetworkObject.t) (n : Network.t) (s : GLState) :
  NetworkObject._data self = Geo_Network n ->
  Network.wf n ->
  exists vs s',
    NetworkObject.init (self, s) = (Ok tt, (NetworkObject.set_vao vs self, s'))
    /\ NetworkObject.vao_edges vs <> NetworkObject.vao_nodes vs
    /\ vao_reads s' (NetworkObject.vao_edges vs)
         (flatten (edge_positions (Network.node_attributes n) (Network.edges n)))
         (flatten (replicate (2 * length (Network.edges n))
                             NetworkObject.default_color_edges))
    /\ vao_reads s' (NetworkObject.vao_nodes vs)
         (flatten (map (Network.node_attributes n) (Network.nodes n)))
         (flatten (replicate (length (Network.nodes n))
                             NetworkObject.default_color_nodes))
    /\ size (vertex_arrays s') = 2 + size (vertex_arrays s)
    /\ size (buffers s') = 8 + size (buffers s)
    /\ buffers s ⊆ buffers s'
    /\ vertex_array_binding s' = 0
    /\ point_size s' = 10%R.
Proof.
  intros Hdata Hwf.
  set (va0 := vertex_arrays s).
  set (e := fresh_name va0).
  set (va1 := <[e := MkVAO ∅ ∅]> va0).
  set (n0 := fresh_name va1).
  set (va2 := <[n0 := MkVAO ∅ ∅]> va1).
  set (s2 := MkGL va2 (buffers s) (vertex_array_binding s)
                  (array_buffer_binding s) (point_size s)).
  set (self' := NetworkObject.set_vao (NetworkObject.MkVaos e n0) self).
  assert (Hn : va1 !! n0 = None) by apply fresh_name_fresh.
  assert (Hne : e <> n0).
  { intros E. rewrite <- E in Hn. unfold va1 in Hn.
    rewrite lookup_insert_eq in Hn. discriminate. }
  assert (Hde : NetworkObject._data self' = Geo_Network n) by exact Hdata.
  destruct (attach_upload e (NetworkObject.edges self') _ _
              (fun s0 => edges_pass_eq self' n Hde s0 Hwf) s2 (MkVAO ∅ ∅))
    as (s3 & Hrun3 & Hreads3 & Hother3 & Hdom3 & Hsub3 & Hsize3 & _ & _).
  { cbn. unfold va2. rewrite lookup_insert_ne by congruence.
    apply lookup_insert_eq. }
  set (s4 := MkGL (vertex_arrays s3) (buffers s3) (vertex_array_binding s3)
                  (array_buffer_binding s3) 10%R).
  destruct (attach_upload n0 (NetworkObject.nodes self') _ _
              (nodes_pass_eq self' n Hde) s4 (MkVAO ∅ ∅))
    as (s5 & Hrun5 & Hreads5 & Hother5 & Hdom5 & Hsub5 & Hsize5 & _ & Hps5).
  { cbn. rewrite Hother3 by congruence. cbn. apply lookup_insert_eq. }
  exists (NetworkObject.MkVaos e n0). eexists. split.
  { unfold NetworkObject.init.
    erewrite st_bind_ok by (apply on_snd_run; reflexivity).
    erewrite st_bind_ok by (apply on_snd_run; reflexivity).
    erewrite st_bind_ok by reflexivity.
    erewrite st_bind_ok by reflexivity.
    erewrite st_bind_ok by (apply on_snd_run; exact Hrun3).
    erewrite st_bind_ok by (apply on_snd_run; reflexivity).
    erewrite st_bind_ok by (apply on_snd_run; exact Hrun5).
    apply on_snd_run. reflexivity. }
  cbn [NetworkObject.vao_edges NetworkObject.vao_nodes vertex_arrays buffers
       vertex_array_binding point_size].
  split; [exact Hne | ].
  split.
  { apply (vao_reads_preserved s3); [exact Hreads3 | | exact Hsub5].
    cbn. apply Hother5. exact Hne. }
  split.
  { apply (vao_reads_preserved s5); [exact Hreads5 | reflexivity | reflexivity]. }
  split.
  { rewrite <- (size_dom (D := gset nat)), Hdom5.
    unfold s4. cbn [vertex_arrays]. rewrite Hdom3.
    unfold s2. cbn [vertex_arrays]. rewrite size_dom.
    unfold va2, n0, va1, e. rewrite !size_insert_fresh. reflexivity. }
  split.
  { rewrite Hsize5. unfold s4. cbn [buffers]. rewrite Hsize3. reflexivity. }
  split; [transitivity (buffers s3); assumption | ].
  split; [reflexivity | exact Hps5].
Qed.

Lemma network_init_ok_witness :
  exists vs s',
    NetworkObject.init (Samples.network_object Samples.path_network, gl_empty)
    = (Ok tt, (NetworkObject.set_vao vs
                 (Samples.network_object Samples.path_network), s'))
    /\ size (vertex_arrays s') = 2
    /\ size (buffers s') = 8
    /\ vertex_array_binding s' = 0.
Proof.
  destruct (network_init_ok (Samples.network_object Samples.path_network)
              Samples.path_network gl_empty eq_refl path_network_wf)
    as (vs & s' & Hrun & _ & _ & _ & Hva & Hb & _ & Hbind & _).
  exists vs, s'. repeat split; assumption.
Defined.

Lemma fresh_name_not_in_dom {A} (m : gmap nat A) : fresh_name m ∉ dom m.
Proof. apply not_elem_of_dom. apply fresh_name_fresh. Qed.

(** X21.  [MeshObject.init] on a mesh whose faces are triangles or
    quadrilaterals on its own vertices and whose edges connect its vertices
    succeeds.  It creates four distinct vertex arrays, stored in [_vao];
    each reads the positions of its pass at location 0 and the colors at
    location 1.  Sixteen buffers are created, two per location; buffers
    that existed are kept, no vertex array is left bound and the point size
    is 10. *)
Theorem mesh_init_ok (self : MeshObject.t) (m : Mesh.t) (s : GLState) :
  MeshObject._mesh self = Geo_Mesh m ->
  Mesh.wf m -> mesh_edges_wf m ->
  (forall f, f ∈ Mesh.faces m -> supported_face (Mesh.face_vertices m f)) ->
  let xyz := Mesh.vertex_attributes m in
  let c := MeshObject.cls self in
  exists vs s',
    MeshObject.init (self, s) = (Ok tt, (MeshObject.set_vao vs self, s'))
    /\ NoDup [MeshObject.vao_front vs; MeshObject.vao_back vs;
              MeshObject.vao_edges vs; MeshObject.vao_vertices vs]
    /\ vao_reads s' (MeshObject.vao_front vs)
         (flatten (triangle_positions xyz (mesh_triangles m)))
         (flatten (replicate (3 * length (mesh_triangles m))
                             (MeshObject.default_color_front c)))
    /\ vao_reads s' (MeshObject.vao_back vs)
         (flatten (triangle_positions xyz (mesh_triangles (Mesh.flip_cycles m))))
         (flatten (replicate (3 * length (mesh_triangles (Mesh.flip_cycles m)))
                             (MeshObject.default_color_back c)))
    /\ vao_reads s' (MeshObject.vao_edges vs)
         (flatten (edge_positions xyz (Mesh.edges m)))
         (flatten (replicate (2 * length (Mesh.edges m))
                             (MeshObject.default_color_edges c)))
    /\ vao_reads s' (MeshObject.vao_vertices vs)
         (flatten (map xyz (Mesh.vertices m)))
         (flatten (replicate (length (Mesh.vertices m))
                             (MeshObject.default_color_vertices c)))
    /\ size (vertex_arrays s') = 4 + size (vertex_arrays s)
    /\ size (buffers s') = 16 + size (buffers s)
    /\ buffers s ⊆ buffers s'
    /\ vertex_array_binding s' = 0
    /\ point_size s' = 10%R.
Proof.
  intros Hmesh Hwf Hewf Hs xyz c.
  set (va0 := vertex_arrays s).
  set (f := fresh_name va0).
  set (va1 := <[f := MkVAO ∅ ∅]> va0).
  set (b := fresh_name va1).
  set (va2 := <[b := MkVAO ∅ ∅]> va1).
  set (e := fresh_name va2).
  set (va3 := <[e := MkVAO ∅ ∅]> va2).
  set (v := fresh_name va3).
  set (va4 := <[v := MkVAO ∅ ∅]> va3).
  set (s4 := MkGL va4 (buffers s) (vertex_array_binding s)
                  (array_buffer_binding s) (point_size s)).
  set (self' := MeshObject.set_vao (MeshObject.MkVaos f b e v) self).
  assert (Hm' : MeshObject._mesh self' = Geo_Mesh m) by exact Hmesh.
  assert (Hb : b ∉ dom va1) by apply fresh_name_not_in_dom.
  assert (He : e ∉ dom va2) by apply fresh_name_not_in_dom.
  assert (Hv : v ∉ dom va3) by apply fresh_name_not_in_dom.
  assert (D1 : dom va1 = {[f]} ∪ dom va0) by apply dom_insert_L.
  assert (D2 : dom va2 = {[b]} ∪ dom va1) by apply dom_insert_L.
  assert (D3 : dom va3 = {[e]} ∪ dom va2) by apply dom_insert_L.
  rewrite D1 in Hb. rewrite D2, D1 in He. rewrite D3, D2, D1 in Hv.
  assert (Nfb : f <> b).
  { intros E. apply Hb. rewrite <- E.
    apply elem_of_union_l, elem_of_singleton. reflexivity. }
  assert (Nfe : f <> e).
  { intros E. apply He. rewrite <- E.
    apply elem_of_union_r, elem_of_union_l, elem_of_singleton. reflexivity. }
  assert (Nbe : b <> e).
  { intros E. apply He. rewrite <- E.
    apply elem_of_union_l, elem_of_singleton. reflexivity. }
  assert (Nfv : f <> v).
  { intros E. apply Hv. rewrite <- E.
    do 2 apply elem_of_union_r. apply elem_of_union_l, elem_of_singleton.
    reflexivity. }
  assert (Nbv : b <> v).
  { intros E. apply Hv. rewrite <- E.
    apply elem_of_union_r, elem_of_union_l, elem_of_singleton. reflexivity. }
  assert (Nev : e <> v).
  { intros E. apply Hv. rewrite <- E.
    apply elem_of_union_l, elem_of_singleton. reflexivity. }
  assert (Lf : va4 !! f = Some (MkVAO ∅ ∅)).
  { unfold va4, va3, va2. rewrite !lookup_insert_ne by congruence.
    apply lookup_insert_eq. }
  assert (Lb : va4 !! b = Some (MkVAO ∅ ∅)).
  { unfold va4, va3. rewrite !lookup_insert_ne by congruence.
    apply lookup_insert_eq. }
  assert (Le : va4 !! e = Some (MkVAO ∅ ∅)).
  { unfold va4. rewrite !lookup_insert_ne by congruence.
    apply lookup_insert_eq. }
  assert (Lv : va4 !! v = Some (MkVAO ∅ ∅)) by apply lookup_insert_eq.
  destruct (attach_upload f (MeshObject.front self') _ _
              (fun s0 => front_pass_eq self' s0 _ _
                           (front_faces_ok self' m Hm' Hwf Hs))
              s4 (MkVAO ∅ ∅) Lf)
    as (sA & RunA & ReadA & OthA & DomA & SubA & SizeA & _ & PsA).
  destruct (attach_upload b (MeshObject.back self') _ _
              (fun s0 => back_pass_eq self' s0 _ _
                           (back_faces_ok self' m Hm' Hwf Hs))
              sA (MkVAO ∅ ∅))
    as (sB & RunB & ReadB & OthB & DomB & SubB & SizeB & _ & PsB).
  { rewrite OthA by congruence. exact Lb. }
  destruct (attach_upload e (MeshObject.edges self') _ _
              (fun s0 => mesh_edges_pass_eq self' m Hm' s0 Hewf)
              sB (MkVAO ∅ ∅))
    as (sC & RunC & ReadC & OthC & DomC & SubC & SizeC & _ & PsC).
  { rewrite OthB, OthA by congruence. exact Le. }
  set (sC' := MkGL (vertex_arrays sC) (buffers sC) (vertex_array_binding sC)
                   (array_buffer_binding sC) 10%R).
  destruct (attach_upload v (MeshObject.vertices self') _ _
              (vertices_pass_eq self' m Hm') sC' (MkVAO ∅ ∅))
    as (sD & RunD & ReadD & OthD & DomD & SubD & SizeD & _ & PsD).
  { cbn. rewrite OthC, OthB, OthA by congruence. exact Lv. }
  exists (MeshObject.MkVaos f b e v). eexists. split.
  { unfold MeshObject.init.
    erewrite st_bind_ok by (apply on_snd_run; reflexivity).
    erewrite st_bind_ok by (apply on_snd_run; reflexivity).
    erewrite st_bind_ok by (apply on_snd_run; reflexivity).
    erewrite st_bind_ok by (apply on_snd_run; reflexivity).
    erewrite st_bind_ok by reflexivity.
    erewrite st_bind_ok by reflexivity.
    erewrite st_bind_ok by (apply on_snd_run; exact RunA).
    erewrite st_bind_ok by (apply on_snd_run; exact RunB).
    erewrite st_bind_ok by (apply on_snd_run; exact RunC).
    erewrite st_bind_ok by (apply on_snd_run; reflexivity).
    erewrite st_bind_ok by (apply on_snd_run; exact RunD).
    apply on_snd_run. reflexivity. }
  cbn [MeshObject.vao_front MeshObject.vao_back MeshObject.vao_edges
       MeshObject.vao_vertices vertex_arrays buffers vertex_array_binding
       point_size].
  assert (SubAD : buffers sA ⊆ buffers sD).
  { transitivity (buffers sB); [exact SubB | ].
    transitivity (buffers sC); [exact SubC | exact SubD]. }
  assert (SubBD : buffers sB ⊆ buffers sD)
    by (transitivity (buffers sC); [exact SubC | exact SubD]).
  split.
  { repeat (apply NoDup_cons_2; [not_among | ]). apply NoDup_nil_2. }
  split.
  { apply (vao_reads_preserved sA); [exact ReadA | | exact SubAD].
    rewrite OthD by congruence. cbn.
    rewrite OthC, OthB by congruence. reflexivity. }
  split.
  { apply (vao_reads_preserved sB); [exact ReadB | | exact SubBD].
    rewrite OthD by congruence. cbn.
    rewrite OthC by congruence. reflexivity. }
  split.
  { apply (vao_reads_preserved sC); [exact ReadC | | exact SubD].
    rewrite OthD by congruence. reflexivity. }
  split.
  { apply (vao_reads_preserved sD); [exact ReadD | reflexivity | reflexivity]. }
  split.
  { rewrite <- (size_dom (D := gset nat)), DomD.
    unfold sC'. cbn [vertex_arrays]. rewrite DomC, DomB, DomA.
    unfold s4. cbn [vertex_arrays]. rewrite size_dom.
    unfold va4, v, va3, e, va2, b, va1, f. rewrite !size_insert_fresh.
    reflexivity. }
  split.
  { rewrite SizeD. unfold sC'. cbn [buffers].
    rewrite SizeC, SizeB, SizeA. reflexivity. }
  split.
  { transitivity (buffers sA); [exact SubA | exact SubAD]. }
  split; [reflexivity | exact PsD].
Qed.

Lemma mesh_init_ok_witness :
  exists vs s',
    MeshObject.init (Samples.mesh_object Samples.quad, gl_empty)
    = (Ok tt, (MeshObject.set_vao vs (Samples.mesh_object Samples.quad), s'))
    /\ size (vertex_arrays s') = 4
    /\ size (buffers s') = 16
    /\ vertex_array_binding s' = 0.
Proof.
  destruct (mesh_init_ok (Samples.mesh_object Samples.quad) Samples.quad
              gl_empty eq_refl quad_wf quad_edges_wf quad_supported)
    as (vs & s' & Hrun & _ & _ & _ & _ & _ & Hva & Hb & _ & Hbind & _).
  exists vs, s'. repeat split; assumption.
Defined.

(** ** Drawing *)

Section drawing.
Import NetworkObject.

(** X22.  Drawing an initialised network object issues one call per shown
    pass, lines for the edges first and points for the nodes second, each
    on the vertex array of its pass; the vertex count of every call is the
    enumerator [GL_BUFFER_SIZE], whatever the size of the network.  Buffers
    and vertex arrays are not changed. *)
Theorem network_draw_calls (self : NetworkObject.t) (vs : vaos)
    (s : GLState) (calls : list draw_call) :
  _vao self = Some vs ->
  exists s',
    Draw.network_draw self (s, calls)
    = (Ok tt,
       (s',
        calls
        ++ (if truthy (show_edges self)
            then [MkDraw (vao_edges vs) GL_LINES 0 GL_BUFFER_SIZE] else [])
        ++ (if truthy (show_nodes self)
            then [MkDraw (vao_nodes vs) GL_POINTS 0 GL_BUFFER_SIZE] else [])))
    /\ buffers s' = buffers s
    /\ vertex_arrays s' = vertex_arrays s.
Proof.
  intros Hvao. destruct s as [va B vab abb ps].
  unfold Draw.network_draw, Draw.network_vao. rewrite Hvao.
  destruct (truthy (show_edges self)), (truthy (show_nodes self)).
  - exists (MkGL va B (vao_nodes vs) abb ps).
    split; [ | split; reflexivity].
    rewrite (st_bind_ok _ _ _
               (MkGL va B (vao_edges vs) abb ps,
                calls ++ [MkDraw (vao_edges vs) GL_LINES 0 GL_BUFFER_SIZE]) tt)
      by reflexivity.
    unfold mbind, st_bind, lift, on_fst, Draw.glDrawArrays,
      GL.glBindVertexArray, modify. cbn. rewrite <- app_assoc. reflexivity.
  - exists (MkGL va B (vao_edges vs) abb ps).
    split; [ | split; reflexivity].
    rewrite (st_bind_ok _ _ _
               (MkGL va B (vao_edges vs) abb ps,
                calls ++ [MkDraw (vao_edges vs) GL_LINES 0 GL_BUFFER_SIZE]) tt)
      by reflexivity.
    unfold mret, st_ret. cbn. rewrite ?app_nil_r. reflexivity.
  - exists (MkGL va B (vao_nodes vs) abb ps).
    split; [ | split; reflexivity].
    rewrite (st_bind_ok _ _ _ (MkGL va B vab abb ps, calls) tt) by reflexivity.
    unfold mbind, st_bind, lift, on_fst, Draw.glDrawArrays,
      GL.glBindVertexArray, modify. cbn. reflexivity.
  - exists (MkGL va B vab abb ps).
    split; [ | split; reflexivity].
    rewrite (st_bind_ok _ _ _ (MkGL va B vab abb ps, calls) tt) by reflexivity.
    unfold mret, st_ret. cbn. rewrite ?app_nil_r. reflexivity.
Qed.

Lemma network_draw_calls_witness :
  exists s',
    Draw.network_draw
      (set_vao (MkVaos 1 2) (Samples.network_object Samples.path_network))
      (gl_empty, [])
    = (Ok tt,
       (s', [MkDraw 1 GL_LINES 0 GL_BUFFER_SIZE;
             MkDraw 2 GL_POINTS 0 GL_BUFFER_SIZE]))
    /\ buffers s' = buffers gl_empty
    /\ vertex_arrays s' = vertex_arrays gl_empty.
Proof.
  exact (network_draw_calls
           (set_vao (MkVaos 1 2) (Samples.network_object Samples.path_network))
           (MkVaos 1 2) gl_empty [] eq_refl).
Defined.

(** X23.  Drawing a network object that was not initialised raises
    [TypeError] as soon as a pass is shown, before any call is issued; with
    both passes hidden it does nothing. *)
Theorem network_draw_uninitialised (self : NetworkObject.t)
    (st0 : GLState * list draw_call) :
  _vao self = None ->
  Draw.network_draw self st0
  = (if truthy (show_edges self) || truthy (show_nodes self)
     then Raise TypeError else Ok tt, st0).
Proof.
  intros Hvao. destruct st0 as [s calls].
  unfold Draw.network_draw, Draw.network_vao. rewrite Hvao.
  destruct (truthy (show_edges self)), (truthy (show_nodes self)); reflexivity.
Qed.

Lemma network_draw_uninitialised_witness :
  Draw.network_draw (Samples.network_object Samples.path_network) (gl_empty, [])
  = (Raise TypeError, (gl_empty, [])).
Proof.
  exact (network_draw_uninitialised
           (Samples.network_object Samples.path_network) (gl_empty, [])
           eq_refl).
Defined.

End drawing.

(** ** The object collection *)

Section collection.

Context {A : Type}.

Lemma dict_getitem_setitem_eq (d : list (nat * A)) (k : nat) (v : A) :
  dict_getitem (Viewer.setitem d k v) k = Ok v.
Proof.
  induction d as [ | [k' v'] d IH]; cbn.
  - rewrite decide_True by reflexivity. reflexivity.
  - destruct (decide (k' = k)) as [E | N]; cbn.
    + rewrite decide_True by reflexivity. reflexivity.
    + rewrite decide_False by exact N. exact IH.
Qed.

Lemma dict_getitem_setitem_ne (d : list (nat * A)) (k k0 : nat) (v : A) :
  k0 <> k -> dict_getitem (Viewer.setitem d k v) k0 = dict_getitem d k0.
Proof.
  intros Hne. induction d as [ | [k' v'] d IH]; cbn.
  - rewrite decide_False by congruence. reflexivity.
  - destruct (decide (k' = k)) as [E | N]; cbn.
    + subst k'. rewrite !decide_False by congruence. reflexivity.
    + destruct (decide (k' = k0)); [reflexivity | exact IH].
Qed.

Lemma setitem_keys (d : list (nat * A)) (k : nat) (v : A) :
  map fst (Viewer.setitem d k v)
  = if decide (k ∈ map fst d) then map fst d else map fst d ++ [k].
Proof.
  induction d as [ | [k' v'] d IH]; cbn.
  - rewrite decide_False by apply not_elem_of_nil. reflexivity.
  - destruct (decide (k' = k)) as [E | N]; cbn.
    + subst k'. rewrite decide_True by left. reflexivity.
    + rewrite IH. destruct (decide (k ∈ map fst d)) as [Hin | Hnin].
      * rewrite decide_True by (right; exact Hin). reflexivity.
      * rewrite decide_False; [reflexivity | ].
        intros H. apply elem_of_cons in H. destruct H as [H | H];
          [congruence | contradiction].
Qed.

End collection.

(** X24.  When the type of the data is registered and the constructor
    accepts the arguments, [add] stores the new object under the identity
    of the data: reading that key gives the object, every other key reads
    as before, a new key goes last in the iteration order and a key that
    was present keeps its place, its object replaced. *)
Theorem add_stores (DTYPE_OTYPE : gmap string Viewer.otype) (data : Viewer.Data)
    (kwargs : gmap string pyval) (c : Viewer.otype) (o : Viewer.render_object)
    (s : Viewer.t) :
  DTYPE_OTYPE !! Viewer.dtype data = Some c ->
  Viewer.construct c (Viewer.content data) kwargs = Ok o ->
  exists s',
    Viewer.add DTYPE_OTYPE data kwargs s = (Ok tt, s')
    /\ dict_getitem (Viewer.objects s') (Viewer.guid data) = Ok o
    /\ (forall k, k <> Viewer.guid data ->
          dict_getitem (Viewer.objects s') k = dict_getitem (Viewer.objects s) k)
    /\ map fst (Viewer.objects s')
       = (if decide (Viewer.guid data ∈ map fst (Viewer.objects s))
          then map fst (Viewer.objects s)
          else map fst (Viewer.objects s) ++ [Viewer.guid data])
    /\ Viewer.constructed s' = Viewer.constructed s ++ [Viewer.guid data].
Proof.
  intros Hreg Hctor. eexists. split.
  { unfold Viewer.add. rewrite Hreg.
    erewrite st_bind_ok by reflexivity.
    erewrite st_bind_ok by reflexivity.
    rewrite Hctor.
    erewrite st_bind_ok by reflexivity.
    reflexivity. }
  cbn [Viewer.objects Viewer.constructed].
  split; [apply dict_getitem_setitem_eq | ].
  split; [intros k Hk; apply dict_getitem_setitem_ne; exact Hk | ].
  split; [apply setitem_keys | reflexivity].
Qed.

Lemma add_stores_witness :
  exists s',
    Viewer.add Viewer.DTYPE_OTYPE_main
               (Viewer.MkData 3 "Mesh" (Geo_Mesh Samples.quad)) ∅ Viewer.create
    = (Ok tt, s')
    /\ dict_getitem (Viewer.objects s') 3
       = Ok (Viewer.Obj_Mesh (Samples.mesh_object Samples.quad)).
Proof.
  destruct (add_stores Viewer.DTYPE_OTYPE_main
              (Viewer.MkData 3 "Mesh" (Geo_Mesh Samples.quad)) ∅
              Viewer.MeshObject_
              (Viewer.Obj_Mesh (Samples.mesh_object Samples.quad))
              Viewer.create)
    as (s' & Hrun & Hget & _).
  - vm_compute. reflexivity.
  - unfold Viewer.construct.
    rewrite decide_True by (rewrite dom_empty_L; apply empty_subseteq).
    reflexivity.
  - exists s'. split; assumption.
Defined.

(** X25.  When the type is registered but a keyword argument is not a
    parameter of the constructor of its class, [add] raises [TypeError]:
    the constructor was called, and the object collection is unchanged. *)
Theorem add_unexpected_keyword (DTYPE_OTYPE : gmap string Viewer.otype)
    (data : Viewer.Data) (kwargs : gmap string pyval) (c : Viewer.otype)
    (s : Viewer.t) :
  DTYPE_OTYPE !! Viewer.dtype data = Some c ->
  ~ dom kwargs ⊆ (match c with
                  | Viewer.NetworkObject_ => Viewer.network_keywords
                  | _ => Viewer.mesh_keywords
                  end) ->
  Viewer.add DTYPE_OTYPE data kwargs s
  = (Raise TypeError,
     Viewer.Build (Viewer.objects s)
                  (Viewer.constructed s ++ [Viewer.guid data])).
Proof.
  intros Hreg Hkw. unfold Viewer.add. rewrite Hreg.
  erewrite st_bind_ok by reflexivity.
  erewrite st_bind_ok by reflexivity.
  assert (Hc : Viewer.construct c (Viewer.content data) kwargs = Raise TypeError).
  { unfold Viewer.construct. destruct c; rewrite decide_False by exact Hkw;
      reflexivity. }
  rewrite Hc. apply st_bind_raise. reflexivity.
Qed.

Lemma add_unexpected_keyword_witness :
  Viewer.add Viewer.DTYPE_OTYPE_main
             (Viewer.MkData 4 "Network" (Geo_Network Samples.path_network))
             {["show_vertices" := PyBool false]} Viewer.create
  = (Raise TypeError, Viewer.Build [] [4]).
Proof.
  apply (add_unexpected_keyword Viewer.DTYPE_OTYPE_main
           (Viewer.MkData 4 "Network" (Geo_Network Samples.path_network))
           {["show_vertices" := PyBool false]} Viewer.NetworkObject_
           Viewer.create).
  - vm_compute. reflexivity.
  - rewrite dom_singleton_L. unfold Viewer.network_keywords.
    intros H. specialize (H "show_vertices").
    rewrite elem_of_singleton in H. specialize (H eq_refl).
    repeat (apply elem_of_union in H; destruct H as [H | H]);
      apply elem_of_singleton in H; discriminate.
Defined.
